(** * A shallow embedding of [app.js]: the question/answer sheet server.

    The server keeps two process-wide tables ([scriptMappings], the Record
    Store, and [excelData], the Question Index table) and three kinds of
    files ([script_mappings.json], [script_links.txt] and the spreadsheets
    under [uploads/]).  Every route handler is embedded as a function from
    the state before the request to the state after it and the reply.

    The third-party libraries the handlers call (Fuse.js, SheetJS) are not
    part of the repository; they are interfaces ([FuseLib], [XLSXLib]) over
    which the handlers and the theorems are generic. *)

From Stdlib Require Import Ascii NArith.
From Stdlib Require QArith.
From stdpp Require Import base strings list gmap sorting pretty.

Local Open Scope string_scope.
Local Open Scope list_scope.

(** ** JavaScript string built-ins

    Strings are sequences of code units below 256 (the Latin-1 range). *)

Definition unit_code (c : ascii) : N := N_of_ascii c.

(** [String.prototype.toLowerCase] on one code unit: A-Z, and the Latin-1
    capitals U+00C0..U+00DE except the multiplication sign U+00D7. *)
Definition lower_unit (c : ascii) : ascii :=
  let n := unit_code c in
  if ((65 <=? n) && (n <=? 90) || (192 <=? n) && (n <=? 214)
      || (216 <=? n) && (n <=? 222))%N
  then ascii_of_N (n + 32) else c.

Fixpoint toLowerCase (s : string) : string :=
  match s with
  | EmptyString => EmptyString
  | String c r => String (lower_unit c) (toLowerCase r)
  end.

(** WhiteSpace and LineTerminator code units: TAB, LF, VT, FF, CR, SP, NBSP. *)
Definition is_ws (c : ascii) : bool :=
  let n := unit_code c in
  ((9 <=? n) && (n <=? 13) || (n =? 32) || (n =? 160))%N.

Fixpoint trimStart (s : string) : string :=
  match s with
  | EmptyString => EmptyString
  | String c r => if is_ws c then trimStart r else s
  end.

Fixpoint trimEnd (s : string) : string :=
  match s with
  | EmptyString => EmptyString
  | String c r =>
      match trimEnd r with
      | EmptyString => if is_ws c then EmptyString else String c EmptyString
      | r' => String c r'
      end
  end.

(** [String.prototype.trim]. *)
Definition trim (s : string) : string := trimEnd (trimStart s).

Definition newline : ascii := ascii_of_N 10.

Definition is_newline (c : ascii) : bool := (unit_code c =? 10)%N.

(** [s.split("\n")]: never empty, [""] splits into one empty line. *)
Fixpoint split_lines (s : string) : list string :=
  match s with
  | EmptyString => [EmptyString]
  | String c r =>
      if is_newline c then EmptyString :: split_lines r
      else match split_lines r with
           | h :: t => String c h :: t
           | [] => [String c EmptyString]
           end
  end.

(** [lines.join("\n")]. *)
Fixpoint join_lines (ls : list string) : string :=
  match ls with
  | [] => EmptyString
  | [l] => l
  | l :: rest => l +:+ String newline (join_lines rest)
  end.

Fixpoint starts_with (needle hay : string) : bool :=
  match needle, hay with
  | EmptyString, _ => true
  | String a n', String b h' => bool_decide (a = b) && starts_with n' h'
  | String _ _, EmptyString => false
  end.

(** [hay.includes(needle)]. *)
Fixpoint includes (needle hay : string) : bool :=
  starts_with needle hay
  || match hay with
     | EmptyString => false
     | String _ h' => includes needle h'
     end.

(** The line contains a line feed. *)
Fixpoint has_newline (s : string) : bool :=
  match s with
  | EmptyString => false
  | String c r => is_newline c || has_newline r
  end.

(** [Date.now().toString()]: the clock reading in decimal digits. *)
Definition number_toString (n : N) : string := pretty n.

(** ** Plain JavaScript objects used as string-keyed tables

    [scriptMappings] is an object literal (or the result of [JSON.parse])
    whose own properties are kept here in creation order. *)

Definition digit_value (c : ascii) : option N :=
  let n := unit_code c in
  if ((48 <=? n) && (n <=? 57))%N then Some (n - 48)%N else None.

Fixpoint parse_digits (acc : N) (s : string) : option N :=
  match s with
  | EmptyString => Some acc
  | String c r =>
      match digit_value c with
      | Some d => parse_digits (acc * 10 + d)%N r
      | None => None
      end
  end.

(** A property key is an array index when it is the canonical decimal
    form of an integer below 2^32 - 1; such keys are enumerated first. *)
Definition array_index (k : string) : option N :=
  match parse_digits 0 k with
  | Some n =>
      if bool_decide (number_toString n = k) && (n <? 4294967295)%N
      then Some n else None
  | None => None
  end.

Section JSObject.
Context {V : Type}.

Fixpoint obj_get (k : string) (o : list (string * V)) : option V :=
  match o with
  | [] => None
  | (k', v) :: rest => if bool_decide (k' = k) then Some v else obj_get k rest
  end.

Definition obj_replace (k : string) (v : V) (o : list (string * V)) : list (string * V) :=
  (λ kv, if bool_decide (kv.1 = k) then (k, v) else kv) <$> o.

(** [o[k] = v].  An existing own property keeps its place; a new one is
    created last, except that assigning to [__proto__] runs the setter
    inherited from [Object.prototype] and creates no own property. *)
Definition obj_set (k : string) (v : V) (o : list (string * V)) : list (string * V) :=
  match obj_get k o with
  | Some _ => obj_replace k v o
  | None => if bool_decide (k = "__proto__") then o else o ++ [(k, v)]
  end.

(** [delete o[k]]. *)
Definition obj_delete (k : string) (o : list (string * V)) : list (string * V) :=
  filter (λ kv, kv.1 ≠ k) o.

Definition index_le (a b : string * V) : Prop :=
  (default 0 (array_index a.1) ≤ default 0 (array_index b.1))%N.

#[local] Instance index_le_dec a b : Decision (index_le a b).
Proof. unfold index_le. apply _. Defined.

(** [Object.entries(o)]: array-index keys in ascending order, then the other
    keys in creation order. *)
Definition Object_entries (o : list (string * V)) : list (string * V) :=
  merge_sort index_le (filter (λ kv, is_Some (array_index kv.1)) o)
  ++ filter (λ kv, ¬ is_Some (array_index kv.1)) o.

(** [Object.values(o)]. *)
Definition Object_values (o : list (string * V)) : list V :=
  snd <$> Object_entries o.

End JSObject.

(** The names every object literal inherits from [Object.prototype]; each
    of them reads as a truthy value (a function or the prototype itself). *)
Definition Object_prototype_names : list string :=
  [ "constructor"; "__proto__"; "hasOwnProperty"; "isPrototypeOf";
    "propertyIsEnumerable"; "toLocaleString"; "toString"; "valueOf";
    "__defineGetter__"; "__defineSetter__"; "__lookupGetter__";
    "__lookupSetter__" ].

(** ** Data model *)

(** A cell of a decoded row. *)
Inductive Cell :=
  | CStr (s : string)
  | CNum (n : Z)
  | CBool (b : bool).

#[global] Instance Cell_eq_dec : EqDecision Cell.
Proof. solve_decision. Defined.

(** A row: column name to cell. *)
Abbreviation Row := (gmap string Cell).

(** JavaScript truthiness of a property read ([None] is [undefined]). *)
Definition truthy (v : option Cell) : bool :=
  match v with
  | None => false
  | Some (CStr s) => bool_decide (s ≠ EmptyString)
  | Some (CNum n) => bool_decide (n ≠ 0%Z)
  | Some (CBool b) => b
  end.

(** The value stored under a file name in [scriptMappings]. *)
Record SheetRecord := {
  scriptId : string;
  redirectUrl : string;
  clientName : string;
}.

#[global] Instance SheetRecord_eq_dec : EqDecision SheetRecord.
Proof. solve_decision. Defined.

Abbreviation Mappings := (list (string * SheetRecord)).

(** [Object.entries(scriptMappings).find(([_, val]) => val.scriptId === id)]. *)
Definition find_entry (m : Mappings) (id : string) : option (string * SheetRecord) :=
  List.find (λ kv, bool_decide (scriptId kv.2 = id)) (Object_entries m).

(** The members of the JSON document kept in [script_mappings.json], in
    the order of the text. *)
Abbreviation JSONDocument := (list (string * SheetRecord)).

(** [JSON.stringify(scriptMappings, null, 2)]: the own properties in
    enumeration order. *)
Definition JSON_stringify (m : Mappings) : JSONDocument := Object_entries m.

(** [JSON.parse(text)]: each member defines an own property ([__proto__]
    included); a repeated key keeps its first place and its last value. *)
Definition JSON_parse (doc : JSONDocument) : Mappings :=
  foldl (λ o kv, match obj_get kv.1 o with
                 | Some _ => obj_replace kv.1 kv.2 o
                 | None => o ++ [kv]
                 end) [] doc.

(** [new Set(Object.values(scriptMappings).map(entry => entry.clientName))]. *)
Definition existingClients (m : Mappings) : list string :=
  clientName <$> Object_values m.

(** Options given to the Fuse constructor. *)
Record FuseOptions := {
  keys : list string;
  threshold : QArith_base.Q;
}.

(** A Fuse instance: the collection it was built over and its options. *)
Record Fuse := {
  docs : list Row;
  options : FuseOptions;
}.

(** [{ keys: ["Question"], threshold: 0.4 }]. *)
Definition server_options : FuseOptions :=
  {| keys := ["Question"]; threshold := QArith_base.Qmake 4 10 |}.

(** [new Fuse(sheet, { keys: ["Question"], threshold: 0.4 })]. *)
Definition new_Fuse (sheet : list Row) : Fuse :=
  {| docs := sheet; options := server_options |}.

(** An entry of [excelData]. *)
Record ExcelEntry := {
  sheet : list Row;
  fuse : Fuse;
}.

(** [excelData]: its own properties, and the entry installed as its
    prototype if [excelData["__proto__"]] was ever assigned. *)
Record ExcelData := {
  own : gmap string ExcelEntry;
  proto : option ExcelEntry;
}.

Definition excel_empty : ExcelData := {| own := ∅; proto := None |}.

(** What [excelData[k]] reads. *)
Inductive Lookup :=
  | Undefined
  | Foreign                   (* a truthy inherited value with no [fuse] property *)
  | Entry (e : ExcelEntry).

Definition excel_get (d : ExcelData) (k : string) : Lookup :=
  match own d !! k with
  | Some e => Entry e
  | None =>
      match proto d with
      | Some e =>
          if bool_decide (k = "__proto__") then Entry e
          else if bool_decide (k ∈ "sheet" :: "fuse" :: Object_prototype_names)
               then Foreign else Undefined
      | None =>
          if bool_decide (k ∈ Object_prototype_names) then Foreign else Undefined
      end
  end.

(** [excelData[k] = e]. *)
Definition excel_set (k : string) (e : ExcelEntry) (d : ExcelData) : ExcelData :=
  if bool_decide (k = "__proto__") && bool_decide (own d !! k = None)
  then {| own := own d; proto := Some e |}
  else {| own := <[k := e]> (own d); proto := proto d |}.

(** [delete excelData[k]]. *)
Definition excel_delete (k : string) (d : ExcelData) : ExcelData :=
  {| own := delete k (own d); proto := proto d |}.

(** ** Exceptions and replies *)

Inductive Exn :=
  | TypeError (msg : string)
  | ENOENT (path : string)
  | XLSXError.

Inductive outcome (A : Type) :=
  | Ok (a : A)
  | Throw (e : Exn).
Arguments Ok {A} a.
Arguments Throw {A} e.

Definition bind {A B} (m : outcome A) (f : A → outcome B) : outcome B :=
  match m with
  | Ok a => f a
  | Throw e => Throw e
  end.

(** [try { m } catch { handler }]. *)
Definition try_catch {A} (m : outcome A) (handler : Exn → A) : A :=
  match m with
  | Ok a => a
  | Throw e => handler e
  end.

Notation "'let*' x := m 'in' f" := (bind m (λ x, f))
  (at level 10, x pattern, m at level 100, f at level 200).

(** A JSON value of a request body. *)
#[warnings="-register-all"]
Inductive JSON :=
  | JNull
  | JBool (b : bool)
  | JNum (n : Z)
  | JStr (s : string)
  | JArr (l : list JSON)
  | JObj (l : list (string * JSON)).

(** The JSON bodies the handlers send. *)
Inductive Body :=
  | BError (error : string)
  | BMessage (message : string)
  | BAnswer (answer : option Cell)
  | BSheet (rows : list Row)
  | BUploaded (scriptId fileName clientName redirectUrl : string).

(** A reply: [res.status(s).json(b)], or an exception that leaves the
    handler and is answered by the framework. *)
Inductive Reply :=
  | Json (status : nat) (body : Body)
  | Uncaught (e : Exn).

(** ** The third-party libraries *)

(** Fuse.js: [Fuse_search opts docs pattern] is the list of items of
    [fuse.search(pattern)], best match first. *)
Class FuseLib := {
  Fuse_search : FuseOptions → list Row → string → list Row;
}.

(** A SheetJS workbook. *)
Record WorkBook (WS : Type) := {
  SheetNames : list string;
  Sheets : gmap string WS;
}.
Arguments SheetNames {WS} _.
Arguments Sheets {WS} _.

(** SheetJS: file contents, worksheets, and the four calls the server makes.
    [XLSX_read] is [None] when parsing throws; [sheet_to_json] is also
    called on a missing worksheet. *)
Class XLSXLib := {
  Buffer : Type;
  WorkSheet : Type;
  XLSX_read : Buffer → option (WorkBook WorkSheet);
  XLSX_write : WorkBook WorkSheet → Buffer;
  sheet_to_json : option WorkSheet → list Row;
  json_to_sheet : list Row → WorkSheet;
}.

(** ** Vocabulary of the properties *)

(** The [question] of a request body is a string. *)
Definition is_string (question : option JSON) : bool :=
  match question with
  | Some (JStr _) => true
  | _ => false
  end.

(** The [question] of a request body is missing or null. *)
Definition is_missing (question : option JSON) : bool :=
  match question with
  | None | Some JNull => true
  | _ => false
  end.


(** The upload's sheet is empty, or its first row has no Question or no
    Answer field. *)
Definition missing_columns (rows : list Row) : Prop :=
  match rows with
  | [] => True
  | r :: _ => r !! "Question" = None ∨ r !! "Answer" = None
  end.

(** Every client name of the store is what [trim] leaves of it. *)
Definition names_trimmed (m : Mappings) : Prop :=
  ∀ k v, (k, v) ∈ m → trim (clientName v) = clientName v.

(** ** The server *)

Section Server.
Context {fuse_lib : FuseLib} {xlsx_lib : XLSXLib}.

(** [fuse.search(pattern)]; Fuse treats its pattern as a string, so an
    [undefined] pattern raises a [TypeError] inside the library. *)
Definition fuse_search (f : Fuse) (pattern : option string) : outcome (list Row) :=
  match pattern with
  | Some p => Ok (Fuse_search (options f) (docs f) p)
  | None => Throw (TypeError "fuse.search: pattern is undefined")
  end.

(** [workbook.Sheets[workbook.SheetNames[0]]]; with no sheet name the key
    read is the string ["undefined"]. *)
Definition first_sheet (wb : WorkBook WorkSheet) : option WorkSheet :=
  match SheetNames wb with
  | name :: _ => Sheets wb !! name
  | [] => Sheets wb !! "undefined"
  end.

(** [XLSX.utils.book_new()]. *)
Definition book_new : WorkBook WorkSheet :=
  {| SheetNames := []; Sheets := ∅ |}.

(** [XLSX.utils.book_append_sheet(wb, ws, name)]; a name already in the
    workbook is refused. *)
Definition book_append_sheet (wb : WorkBook WorkSheet) (ws : WorkSheet) (name : string)
  : outcome (WorkBook WorkSheet) :=
  if bool_decide (name ∈ SheetNames wb) then Throw XLSXError
  else Ok {| SheetNames := SheetNames wb ++ [name]; Sheets := <[name := ws]> (Sheets wb) |}.

(** The process state: the two tables in memory and the files on disk.
    The upload directory of multer and [path.join(__dirname, "uploads")]
    are the same directory (the server is started from its own directory);
    its files are keyed by name.  Writes to disk succeed. *)
Record State := {
  scriptMappings : Mappings;
  excelData : ExcelData;
  mappings_file : option JSONDocument;   (* script_mappings.json *)
  links_file : option string;            (* script_links.txt *)
  uploads : gmap string Buffer;          (* uploads/<name> *)
}.

(** Module initialisation: the mapping file is loaded if it exists, and
    the Question Index table starts empty. *)
Definition startup (mf : option JSONDocument) (lf : option string) (up : gmap string Buffer)
  : State :=
  {| scriptMappings := match mf with Some doc => JSON_parse doc | None => [] end;
     excelData := excel_empty;
     mappings_file := mf;
     links_file := lf;
     uploads := up |}.

(** The process is stopped and started again over the same files. *)
Definition restart (st : State) : State :=
  startup (mappings_file st) (links_file st) (uploads st).

(** [XLSX.readFile] of a file of the upload directory. *)
Definition readFile (up : gmap string Buffer) (name : string) : outcome (WorkBook WorkSheet) :=
  match up !! name with
  | None => Throw (ENOENT name)
  | Some data =>
      match XLSX_read data with
      | Some wb => Ok wb
      | None => Throw XLSXError
      end
  end.

(** *** POST /upload *)

Record UploadRequest := {
  file : option (string * Buffer);       (* originalname and content *)
  body_clientName : option string;
  now : N;                               (* what Date.now() reads *)
}.

(** [upload.single("file")]: multer stores the file under its original
    name before the handler runs. *)
Definition multer_single (req : UploadRequest) (st : State) : State :=
  match file req with
  | Some (name, data) =>
      {| scriptMappings := scriptMappings st;
         excelData := excelData st;
         mappings_file := mappings_file st;
         links_file := links_file st;
         uploads := <[name := data]> (uploads st) |}
  | None => st
  end.

Definition link_line (clientName scriptId fileName redirectUrl : string) : string :=
  "Client: " +:+ clientName +:+ ", Script ID: " +:+ scriptId +:+ ", File: " +:+ fileName
  +:+ ", URL: http://65.1.176.171:8080" +:+ redirectUrl +:+ String newline EmptyString.

(** [fs.appendFile("script_links.txt", line, ...)]: creates the file if it
    is missing. *)
Definition appendFile (line : string) (content : option string) : option string :=
  Some (default EmptyString content +:+ line).

(** [!sheet.length || !sheet[0].Question || !sheet[0].Answer]. *)
Definition sheet_rejected (sheet : list Row) : bool :=
  match sheet with
  | [] => true
  | r :: _ => negb (truthy (r !! "Question")) || negb (truthy (r !! "Answer"))
  end.

Definition upload_handler (req : UploadRequest) (st : State) : State * Reply :=
  match file req, body_clientName req with
  | Some (fileName, _), Some rawName =>
      if bool_decide (rawName = EmptyString)
      then (st, Json 400 (BError "File and client name are required."))
      else
        let clientName := trim rawName in
        if bool_decide (clientName ∈ existingClients (scriptMappings st))
        then (st, Json 400 (BError "Client name already exists. Please choose a different name."))
        else
          let scriptId := number_toString (now req) in
          let redirectUrl := "/ask/" +:+ scriptId in
          let mappings :=
            obj_set fileName
              {| scriptId := scriptId; redirectUrl := redirectUrl; clientName := clientName |}
              (scriptMappings st) in
          let st1 :=
            {| scriptMappings := mappings;
               excelData := excelData st;
               mappings_file := Some (JSON_stringify mappings);
               links_file := links_file st;
               uploads := uploads st |} in
          match readFile (uploads st) fileName with
          | Throw e => (st1, Uncaught e)
          | Ok workbook =>
              let sheet := sheet_to_json (first_sheet workbook) in
              if sheet_rejected sheet
              then (st1, Json 400 (BError "The uploaded file is empty or missing required columns."))
              else
                ({| scriptMappings := mappings;
                    excelData :=
                      excel_set scriptId {| sheet := sheet; fuse := new_Fuse sheet |} (excelData st);
                    mappings_file := Some (JSON_stringify mappings);
                    links_file :=
                      appendFile (link_line clientName scriptId fileName redirectUrl) (links_file st);
                    uploads := uploads st |},
                 Json 200 (BUploaded scriptId fileName clientName redirectUrl))
          end
  | _, _ => (st, Json 400 (BError "File and client name are required."))
  end.

Definition upload (req : UploadRequest) (st : State) : State * Reply :=
  upload_handler req (multer_single req st).

(** *** POST /process-speech/:id *)

(** [req.body.question?.toLowerCase()]: [undefined] for a missing or null
    question, a [TypeError] for any other value that is not a string. *)
Definition question_toLowerCase (question : option JSON) : outcome (option string) :=
  match question with
  | None | Some JNull => Ok None
  | Some (JStr s) => Ok (Some (toLowerCase s))
  | Some _ => Throw (TypeError "req.body.question?.toLowerCase is not a function")
  end.

Definition no_data : Body := BAnswer (Some (CStr "No data found for this script.")).

Definition fallback : option Cell := Some (CStr "Sorry, please ask related questions.").

Definition process_speech (id : string) (question : option JSON) (st : State) : State * Reply :=
  match question_toLowerCase question with
  | Throw e => (st, Uncaught e)
  | Ok userQuestion =>
      match excel_get (excelData st) id with
      | Undefined => (st, Json 404 no_data)
      | Foreign =>
          (st, Uncaught (TypeError "Cannot read properties of undefined (reading 'search')"))
      | Entry e =>
          match fuse_search (fuse e) userQuestion with
          | Throw ex => (st, Uncaught ex)
          | Ok result =>
              (st, Json 200 (BAnswer match result with
                                     | item :: _ => item !! "Answer"
                                     | [] => fallback
                                     end))
          end
      end
  end.

(** *** GET /get-excel/:id *)

Definition get_excel (id : string) (st : State) : State * Reply :=
  match find_entry (scriptMappings st) id with
  | None => (st, Json 404 (BError "File not found."))
  | Some (fileName, _) =>
      (st, try_catch
             (let* workbook := readFile (uploads st) fileName in
              Ok (Json 200 (BSheet (sheet_to_json (first_sheet workbook)))))
             (λ _, Json 500 (BError "Error reading Excel file.")))
  end.

(** *** PUT /update-excel *)

Record UpdateBody := {
  body_scriptId : option string;
  body_sheet : option (list Row);        (* [None]: not an array *)
}.

Definition updated_message : Body :=
  BMessage "Excel data updated successfully and reloaded for voice assistant!".

Definition update_excel (body : UpdateBody) (st : State) : State * Reply :=
  match body_scriptId body, body_sheet body with
  | Some id, Some rows =>
      if bool_decide (id = EmptyString)
      then (st, Json 400 (BError "Invalid data format."))
      else
        match find_entry (scriptMappings st) id with
        | None => (st, Json 404 (BError "File not found."))
        | Some (fileName, _) =>
            match book_append_sheet book_new (json_to_sheet rows) "Sheet1" with
            | Throw _ => (st, Json 500 (BError "Server error."))
            | Ok newWorkbook =>
                let files := <[fileName := XLSX_write newWorkbook]> (uploads st) in
                match readFile files fileName with
                | Throw _ =>
                    ({| scriptMappings := scriptMappings st;
                        excelData := excelData st;
                        mappings_file := mappings_file st;
                        links_file := links_file st;
                        uploads := files |},
                     Json 500 (BError "Server error."))
                | Ok updatedWorkbook =>
                    let updatedSheet := sheet_to_json (first_sheet updatedWorkbook) in
                    ({| scriptMappings := scriptMappings st;
                        excelData :=
                          excel_set id {| sheet := updatedSheet; fuse := new_Fuse updatedSheet |}
                            (excelData st);
                        mappings_file := mappings_file st;
                        links_file := links_file st;
                        uploads := files |},
                     Json 200 updated_message)
                end
            end
        end
  | _, _ => (st, Json 400 (BError "Invalid data format."))
  end.

(** *** DELETE /delete/:scriptId *)

(** The rewritten link log: the lines that do not contain the id. *)
Definition remove_links (id content : string) : string :=
  join_lines (filter (λ line, includes id line = false) (split_lines content)).

Definition delete_script (id : string) (st : State) : State * Reply :=
  match find_entry (scriptMappings st) id with
  | None => (st, Json 404 (BError "Script not found."))
  | Some (fileName, _) =>
      let mappings := obj_delete fileName (scriptMappings st) in
      match links_file st with
      | None =>
          ({| scriptMappings := mappings;
              excelData := excel_delete id (excelData st);
              mappings_file := Some (JSON_stringify mappings);
              links_file := None;
              uploads := delete fileName (uploads st) |},
           Json 500 (BError "Server error."))
      | Some content =>
          ({| scriptMappings := mappings;
              excelData := excel_delete id (excelData st);
              mappings_file := Some (JSON_stringify mappings);
              links_file := Some (remove_links id content);
              uploads := delete fileName (uploads st) |},
           Json 200 (BMessage "Script deleted successfully!"))
      end
  end.

(** *** Requests and runs *)

Inductive Request :=
  | Upload (req : UploadRequest)
  | ProcessSpeech (id : string) (question : option JSON)
  | GetExcel (id : string)
  | UpdateExcel (body : UpdateBody)
  | Delete (id : string).

Definition handle (rq : Request) (st : State) : State * Reply :=
  match rq with
  | Upload req => upload req st
  | ProcessSpeech id question => process_speech id question st
  | GetExcel id => get_excel id st
  | UpdateExcel body => update_excel body st
  | Delete id => delete_script id st
  end.

(** The requests of a run are handled one after the other. *)
Fixpoint run (rqs : list Request) (st : State) : State * list Reply :=
  match rqs with
  | [] => (st, [])
  | rq :: rest =>
      let '(st1, reply) := handle rq st in
      let '(st2, replies) := run rest st1 in
      (st2, reply :: replies)
  end.

(** *** Assumptions on the libraries, stated where a property needs one *)

(** Writing [rows] as the only sheet of a new workbook and reading the
    file back gives [rows] again. *)
Definition codec_round_trips (rows : list Row) : Prop :=
  ∃ wb,
    XLSX_read (XLSX_write {| SheetNames := ["Sheet1"];
                             Sheets := <["Sheet1" := json_to_sheet rows]> ∅ |}) = Some wb
    ∧ sheet_to_json (first_sheet wb) = rows.

End Server.

(** ** The rest of the server *)

(** *** GET /script-links *)

(** A line terminator, which [.] does not match. *)
Definition is_line_terminator (c : ascii) : bool :=
  let n := unit_code c in ((n =? 10) || (n =? 13))%N.

(** The string without its first [n] code units. *)
Fixpoint skip (n : nat) (s : string) : string :=
  match n, s with
  | S n', String _ r => skip n' r
  | _, _ => s
  end.

(** A lazy group (a dot under a lazy star) followed by the literal [sep]
    and by the rest [k] of the pattern: the shortest run of characters other than line
    terminators after which [sep] and the rest match. *)
Fixpoint lazy_group {A} (sep : string) (k : string → option A) (s : string)
  : option (string * A) :=
  match (if starts_with sep s then k (skip (String.length sep) s) else None) with
  | Some a => Some (EmptyString, a)
  | None =>
      match s with
      | String c r =>
          if is_line_terminator c then None
          else match lazy_group sep k r with
               | Some (g, a) => Some (String c g, a)
               | None => None
               end
      | EmptyString => None
      end
  end.

(** The greedy group that ends the pattern, a dot under a star: every
    character up to the first line terminator. *)
Fixpoint greedy_dots (s : string) : string :=
  match s with
  | String c r => if is_line_terminator c then EmptyString else String c (greedy_dots r)
  | EmptyString => EmptyString
  end.

(** An unanchored pattern is tried at every position, leftmost first. *)
Fixpoint search_from {A} (m : string → option A) (s : string) : option A :=
  match m s with
  | Some a => Some a
  | None =>
      match s with
      | String _ r => search_from m r
      | EmptyString => None
      end
  end.

(** An element of the [scripts] array. *)
Record ScriptLink := {
  client : string;
  link_scriptId : string;
  link_fileName : string;
  url : string;
}.

(** The pattern of a log line at the start of [s]: the literal
    ["Client: "], three lazy groups that end at [", Script ID: "],
    [", File: "] and [", URL: "], and the greedy group. *)
Definition link_pattern_here (s : string) : option ScriptLink :=
  if starts_with "Client: " s then
    match lazy_group ", Script ID: "
            (lazy_group ", File: "
               (lazy_group ", URL: " (λ rest, Some (greedy_dots rest))))
            (skip 8 s) with
    | Some (g1, (g2, (g3, g4))) =>
        Some {| client := g1; link_scriptId := g2; link_fileName := g3; url := g4 |}
    | None => None
    end
  else None.

(** [line.match(...)] turned into an object, or [null]. *)
Definition parse_link (line : string) : option ScriptLink :=
  search_from link_pattern_here line.

(** The [scripts] array of the reply: the lines of [data.trim()], each
    matched against the pattern, the lines that do not match dropped. *)
Definition scripts_of (data : string) : list ScriptLink :=
  omap parse_link (split_lines (trim data)).

(** The line that an upload appends to the link log for an entry (client
    name, scriptId, file name), without its line feed. *)
Definition link_body (entry : string * string * string) : string :=
  let '(clientName, scriptId, fileName) := entry in
  "Client: " +:+ clientName +:+ ", Script ID: " +:+ scriptId +:+ ", File: " +:+ fileName
  +:+ ", URL: " +:+ "http://65.1.176.171:8080/ask/" +:+ scriptId.

(** The text of a link log to which uploads appended the lines of the
    given entries, oldest first. *)
Fixpoint log_text (entries : list (string * string * string)) : string :=
  match entries with
  | [] => EmptyString
  | entry :: rest => link_body entry +:+ String newline (log_text rest)
  end.

(** What GET /script-links lists for an entry of the log. *)
Definition listed (entry : string * string * string) : ScriptLink :=
  let '(clientName, scriptId, fileName) := entry in
  {| client := clientName; link_scriptId := scriptId; link_fileName := fileName;
     url := "http://65.1.176.171:8080/ask/" +:+ scriptId |}.

(** Every code unit of the string passes the test. *)
Fixpoint all_units (p : ascii → bool) (s : string) : bool :=
  match s with
  | EmptyString => true
  | String c r => p c && all_units p r
  end.

Definition is_comma (c : ascii) : bool := (unit_code c =? 44)%N.

(** A field of a log line that the pattern reads back whole: no comma and
    no line terminator. *)
Definition plain_field (s : string) : bool :=
  all_units (λ c, negb (is_comma c) && negb (is_line_terminator c)) s.

(** A scriptId that the pattern and [trim] read back whole: not empty, no
    comma and no white space. *)
Definition plain_id (s : string) : bool :=
  bool_decide (s ≠ EmptyString) && all_units (λ c, negb (is_comma c) && negb (is_ws c)) s.

(** An entry whose client name and file name are plain fields and whose
    scriptId is a plain id. *)
Definition plain_entry (entry : string * string * string) : bool :=
  let '(clientName, scriptId, fileName) := entry in
  plain_field clientName && plain_id scriptId && plain_field fileName.

(** The string ends with a code unit that is not white space. *)
Fixpoint last_unit_ok (s : string) : bool :=
  match s with
  | EmptyString => false
  | String c EmptyString => negb (is_ws c)
  | String _ r => last_unit_ok r
  end.

(** *** The routes, in the order of their registration *)

Inductive Method := GET | POST | PUT | DELETE.

#[global] Instance Method_eq_dec : EqDecision Method.
Proof. solve_decision. Defined.

Inductive Handler :=
  | upload_route
  | script_links_route
  | process_speech_route
  | get_excel_route
  | update_excel_route
  | delete_route
  | sendFile (page : string).

Definition routes : list (Method * string * Handler) :=
  [ (POST, "/upload", upload_route);
    (GET, "/script-links", script_links_route);
    (POST, "/process-speech/:id", process_speech_route);
    (GET, "/get-excel/:id", get_excel_route);
    (PUT, "/update-excel", update_excel_route);
    (DELETE, "/delete/:scriptId", delete_route);
    (GET, "/ask/:id", sendFile "ask.html");
    (GET, "*", sendFile "index.html");
    (GET, "/script", sendFile "scripts.html") ].

(** Express: whether a route path matches a request path. *)
Class ExpressLib := {
  path_matches : string → string → bool;
}.

(** The handler that answers a request that the middleware passed on: the
    first registered route of the method whose path matches. *)
Definition dispatch `{ExpressLib} (m : Method) (path : string) : option Handler :=
  snd <$> List.find (λ r, bool_decide (r.1.1 = m) && path_matches r.1.2 path) routes.

Section ServerRest.
Context {fuse_lib : FuseLib} {xlsx_lib : XLSXLib}.

(** GET /script-links: the [scripts] array of the 200 reply; an empty array
    when [script_links.txt] does not exist. *)
Definition script_links (st : State) : list ScriptLink :=
  match links_file st with
  | None => []
  | Some data => scripts_of data
  end.

(** What happens to a process: a request is handled, or the process is
    stopped and started again. *)
Inductive Event :=
  | Handle (rq : Request)
  | Restart.

Fixpoint life (events : list Event) (st : State) : State :=
  match events with
  | [] => st
  | Handle rq :: rest => life rest (handle rq st).1
  | Restart :: rest => life rest (restart st)
  end.

(** The file names of the store are pairwise different, and the mapping
    file holds the records of the store (no file, no record). *)
Definition store_ok (st : State) : Prop :=
  NoDup (scriptMappings st).*1
  ∧ match mappings_file st with
    | Some doc => doc ≡ₚ scriptMappings st
    | None => scriptMappings st = []
    end.

(** No two file names of the store carry the same client name. *)
Definition clients_unique (st : State) : Prop :=
  ∀ k1 v1 k2 v2,
    (k1, v1) ∈ scriptMappings st → (k2, v2) ∈ scriptMappings st →
    clientName v1 = clientName v2 → k1 = k2.

End ServerRest.

(** ** Reference libraries and sample data

    Executable stand-ins for the two libraries, on which the handlers can
    be run: a scorer that returns the documents with a key equal to the
    pattern up to case, in collection order, and a codec whose file
    contents are the workbook itself. *)

Module Reference.

Definition exact_hit (ks : list string) (pattern : string) (r : Row) : bool :=
  existsb (λ k, match r !! k with
                | Some (CStr t) => bool_decide (toLowerCase t = toLowerCase pattern)
                | _ => false
                end) ks.

Definition exact_fuse : FuseLib :=
  {| Fuse_search opts ds pattern := filter (λ r, Is_true (exact_hit (keys opts) pattern r)) ds |}.

Definition plain_xlsx : XLSXLib :=
  {| Buffer := WorkBook (list Row);
     WorkSheet := list Row;
     XLSX_read := Some;
     XLSX_write := id;
     sheet_to_json := default [];
     json_to_sheet := id |}.




(** A row with the two required columns. *)
Definition qa (question answer : string) : Row :=
  <["Question" := CStr question]> (<["Answer" := CStr answer]> ∅).

(** A spreadsheet file holding the given rows in its only sheet. *)
Definition xlsx_file (rows : list Row) : @Buffer plain_xlsx :=
  {| SheetNames := ["Sheet1"]; Sheets := <["Sheet1" := rows]> ∅ |}.

Definition hours_sheet : list Row := [qa "What are your hours?" "9-5"].

(** Two rows that ask the same question and answer it differently. *)
Definition twin_sheet : list Row := [qa "hi" "first"; qa "hi" "second"].

(** A fresh process with no files. *)
Definition fresh : @State plain_xlsx := @startup plain_xlsx None None ∅.

Definition upload_of (name : string) (rows : list Row) (client : string) (clock : N)
  : @UploadRequest plain_xlsx :=
  {| file := Some (name, xlsx_file rows); body_clientName := Some client; now := clock |}.

(** The state after [faq.xlsx], holding [hours_sheet], was uploaded by
    Acme at clock reading 1700. *)
Definition hours_entry : ExcelEntry :=
  {| sheet := hours_sheet; fuse := new_Fuse hours_sheet |}.

Definition hours_record : SheetRecord :=
  {| scriptId := "1700"; redirectUrl := "/ask/1700"; clientName := "Acme" |}.

Definition hours_state : @State plain_xlsx :=
  {| scriptMappings := [("faq.xlsx", hours_record)];
     excelData := {| own := <["1700" := hours_entry]> ∅; proto := None |};
     mappings_file := Some [("faq.xlsx", hours_record)];
     links_file :=
       Some "Client: Acme, Script ID: 1700, File: faq.xlsx, URL: http://65.1.176.171:8080/ask/1700
";
     uploads := <["faq.xlsx" := xlsx_file hours_sheet]> ∅ |}.


(** The state after the first upload of a process had an empty sheet: the
    record is stored and there is no link log. *)
Definition orphan_state : @State plain_xlsx :=
  (upload (upload_of "empty.xlsx" [] "Acme" 5) fresh).1.





(** Two uploads handled at the same clock reading. *)
Definition same_clock_run : list (@Request plain_xlsx) :=
  [ Upload (upload_of "a.xlsx" hours_sheet "A" 5);
    Upload (upload_of "b.xlsx" hours_sheet "B" 5) ].

(** Two uploads handled at different clock readings. *)
Definition two_uploads_run : list (@Request plain_xlsx) :=
  [ Upload (upload_of "a.xlsx" hours_sheet "A" 5);
    Upload (upload_of "b.xlsx" hours_sheet "B" 6) ].

(** A stand-in for the path matching of Express: the wildcard matches
    every path; any other route path is compared with the request path
    segment by segment, a segment that starts with a colon matching every
    non-empty segment. *)
Fixpoint split_slash (s : string) : list string :=
  match s with
  | EmptyString => [EmptyString]
  | String c r =>
      if bool_decide (c = "/"%char) then EmptyString :: split_slash r
      else match split_slash r with
           | h :: t => String c h :: t
           | [] => [String c EmptyString]
           end
  end.

Definition segment_matches (pat seg : string) : bool :=
  match pat with
  | String ":" _ => negb (bool_decide (seg = EmptyString))
  | _ => bool_decide (pat = seg)
  end.

Fixpoint segments_match (pats segs : list string) : bool :=
  match pats, segs with
  | [], [] => true
  | p :: pats', g :: segs' => segment_matches p g && segments_match pats' segs'
  | _, _ => false
  end.

Definition express_paths : ExpressLib :=
  {| path_matches pat path :=
       bool_decide (pat = "*") || segments_match (split_slash pat) (split_slash path) |}.

End Reference.

(** * Properties *)

(** ** String built-ins *)

Example toLowerCase_sample : toLowerCase "What Are YOUR hours?" = "what are your hours?".
Proof. reflexivity. Qed.

Example trim_sample : trim "  Acme Corp " = "Acme Corp".
Proof. reflexivity. Qed.

Example split_sample : split_lines "a
b
" = ["a"; "b"; ""].
Proof. reflexivity. Qed.

Example join_sample : join_lines ["a"; "b"; ""] = "a
b
".
Proof. reflexivity. Qed.

Example includes_sample : includes "170" "Script ID: 1700, File" = true.
Proof. reflexivity. Qed.

Example number_toString_sample : number_toString 1700000000123 = "1700000000123".
Proof. reflexivity. Qed.

Lemma lower_unit_idemp (c : ascii) : lower_unit (lower_unit c) = lower_unit c.
Proof. destruct c as [[] [] [] [] [] [] [] []]; reflexivity. Qed.

Lemma toLowerCase_idemp (s : string) : toLowerCase (toLowerCase s) = toLowerCase s.
Proof.
  induction s as [|c s IH]; simpl; [reflexivity|].
  by rewrite lower_unit_idemp, IH.
Qed.

Lemma number_toString_inj (m n : N) : number_toString m = number_toString n → m = n.
Proof. unfold number_toString. apply (inj pretty). Qed.

Lemma trimStart_cases (s : string) :
  trimStart s = EmptyString ∨ ∃ c r, trimStart s = String c r ∧ is_ws c = false.
Proof.
  induction s as [|c s IH]; simpl; [by left|].
  destruct (is_ws c) eqn:Hc; [done|]. right. by exists c, s.
Qed.

Lemma trimEnd_cases (c : ascii) (r : string) :
  trimEnd (String c r) = EmptyString ∨ ∃ r', trimEnd (String c r) = String c r'.
Proof.
  simpl. destruct (trimEnd r); [|right; by eexists].
  destruct (is_ws c); [by left|right; by eexists].
Qed.

Lemma trimEnd_idemp (s : string) : trimEnd (trimEnd s) = trimEnd s.
Proof.
  induction s as [|c s IH]; simpl; [done|].
  destruct (trimEnd s) as [|a r'] eqn:Hs.
  - destruct (is_ws c) eqn:Hc; simpl; [done|]. by rewrite Hc.
  - change (trimEnd (String c (String a r')))
      with (match trimEnd (String a r') with
            | EmptyString => if is_ws c then EmptyString else String c EmptyString
            | String a' r2 => String c (String a' r2)
            end).
    by rewrite IH.
Qed.

(** [trim] leaves a trimmed string as it is. *)
Lemma trim_idemp (s : string) : trim (trim s) = trim s.
Proof.
  unfold trim. destruct (trimStart_cases s) as [->|(c & r & -> & Hc)]; [done|].
  destruct (trimEnd_cases c r) as [->|[r' Hr]]; [done|].
  rewrite Hr. simpl trimStart. rewrite Hc, <- Hr. apply trimEnd_idemp.
Qed.

Lemma split_lines_nonempty (s : string) : split_lines s ≠ [].
Proof.
  induction s as [|c s IH]; simpl; [done|].
  destruct (is_newline c); [done|].
  destruct (split_lines s); done.
Qed.

Lemma split_lines_no_newline (s : string) :
  Forall (λ l, has_newline l = false) (split_lines s).
Proof.
  induction s as [|c s IH]; simpl.
  - by constructor.
  - destruct (is_newline c) eqn:Hc.
    + by constructor.
    + destruct (split_lines s) as [|h t]; [by repeat constructor; simpl; rewrite Hc|].
      inversion IH; subst. constructor; [|done]. simpl. by rewrite Hc.
Qed.

Lemma split_lines_single (l : string) : has_newline l = false → split_lines l = [l].
Proof.
  induction l as [|c l IH]; simpl; [done|].
  intros [Hc Hl]%orb_false_iff. rewrite Hc, (IH Hl). done.
Qed.

Lemma split_lines_app (l rest : string) :
  has_newline l = false →
  split_lines (l +:+ String newline rest) = l :: split_lines rest.
Proof.
  induction l as [|c l IH]; simpl; [done|].
  intros [Hc Hl]%orb_false_iff. rewrite Hc, (IH Hl). done.
Qed.

Lemma split_join_lines (ls : list string) :
  ls ≠ [] → Forall (λ l, has_newline l = false) ls → split_lines (join_lines ls) = ls.
Proof.
  induction ls as [|l ls IH]; [done|].
  intros _ Hall. inversion Hall as [|? ? Hl Hls]; subst.
  destruct ls as [|l' ls'].
  - simpl. by apply split_lines_single.
  - change (join_lines (l :: l' :: ls')) with (l +:+ String newline (join_lines (l' :: ls'))).
    rewrite split_lines_app by done. f_equal. by apply IH.
Qed.

Lemma includes_empty_hay (needle : string) :
  needle ≠ EmptyString → includes needle EmptyString = false.
Proof. destruct needle; done. Qed.

(** After the rewrite of the link log no line contains the id. *)
Lemma remove_links_clean (id content line : string) :
  id ≠ EmptyString →
  line ∈ split_lines (remove_links id content) → includes id line = false.
Proof.
  intros Hid. unfold remove_links.
  set (kept := filter (λ l, includes id l = false) (split_lines content)).
  assert (Hkept : Forall (λ l, includes id l = false) kept).
  { apply Forall_forall. intros l Hl. by apply list_elem_of_filter in Hl as [? _]. }
  assert (Hnl : Forall (λ l, has_newline l = false) kept).
  { apply Forall_forall. intros l Hl. apply list_elem_of_filter in Hl as [_ Hl].
    by apply (proj1 (Forall_forall _ _) (split_lines_no_newline content)). }
  destruct (decide (kept = [])) as [->|Hne].
  - simpl. intros ->%list_elem_of_singleton. by apply includes_empty_hay.
  - rewrite split_join_lines by done. intros Hl.
    by apply (proj1 (Forall_forall _ _) Hkept).
Qed.

(** ** Object tables *)

Section JSObjectFacts.
Context {V : Type}.
Implicit Types (o : list (string * V)) (k : string) (v : V).

(** Enumeration reorders the own properties and loses none. *)
Lemma elem_of_Object_entries o (kv : string * V) : kv ∈ Object_entries o ↔ kv ∈ o.
Proof.
  unfold Object_entries. rewrite elem_of_app, merge_sort_Permutation.
  rewrite !list_elem_of_filter.
  destruct (decide (is_Some (array_index kv.1))); tauto.
Qed.

Lemma elem_of_obj_delete o k k' v : (k', v) ∈ obj_delete k o ↔ (k', v) ∈ o ∧ k' ≠ k.
Proof. unfold obj_delete. rewrite list_elem_of_filter. simpl. tauto. Qed.

Lemma obj_get_None o k : obj_get k o = None ↔ ∀ v, (k, v) ∉ o.
Proof.
  induction o as [|[k' v'] o IH]; simpl.
  - split; [intros _ v Hin; by apply elem_of_nil in Hin|done].
  - case_bool_decide as Hk.
    + subst. split; [done|]. intros H. destruct (H v'). by left.
    + rewrite IH. split.
      * intros H v Hin. apply elem_of_cons in Hin as [[= ? ?]|Hin]; [by subst|].
        by apply (H v).
      * intros H v Hin. apply (H v). by right.
Qed.

Lemma obj_get_Some o k v : obj_get k o = Some v → (k, v) ∈ o.
Proof.
  induction o as [|[k' v'] o IH]; simpl; [done|].
  case_bool_decide as Hk.
  - intros [= ->]. subst. by left.
  - intros H. right. by apply IH.
Qed.

Lemma obj_get_obj_delete o k : obj_get k (obj_delete k o) = None.
Proof. apply obj_get_None. intros v [_ Hne]%elem_of_obj_delete. done. Qed.

Lemma elem_of_obj_replace o k v k' v' :
  (k', v') ∈ obj_replace k v o → (k', v') = (k, v) ∨ ((k', v') ∈ o ∧ k' ≠ k).
Proof.
  unfold obj_replace. intros [[k0 v0] [Heq Hin]]%list_elem_of_fmap.
  simpl in Heq. case_bool_decide as Hk; [by left|].
  right. inversion Heq; subst. done.
Qed.

Lemma obj_get_obj_replace o k v :
  is_Some (obj_get k o) → obj_get k (obj_replace k v o) = Some v.
Proof.
  induction o as [|[k' v'] o IH]; simpl; [by intros [? ?]|].
  case_bool_decide as Hk; simpl.
  - by rewrite bool_decide_true.
  - rewrite (bool_decide_false _ Hk). done.
Qed.

(** After [o[k] = v] every own property is the new one or an old one
    under another key. *)
Lemma elem_of_obj_set o k v k' v' :
  (k', v') ∈ obj_set k v o → (k', v') = (k, v) ∨ ((k', v') ∈ o ∧ k' ≠ k).
Proof.
  unfold obj_set. destruct (obj_get k o) eqn:Hget.
  - apply elem_of_obj_replace.
  - case_bool_decide.
    + intros Hin. right. split; [done|]. intros ->.
      by apply (proj1 (obj_get_None _ _) Hget v').
    + intros [Hin|Hin%list_elem_of_singleton]%elem_of_app; [|by left].
      right. split; [done|]. intros ->.
      by apply (proj1 (obj_get_None _ _) Hget v').
Qed.

Lemma obj_get_app_fresh o k v : obj_get k o = None → obj_get k (o ++ [(k, v)]) = Some v.
Proof.
  induction o as [|[k' v'] o IH]; simpl.
  - by rewrite bool_decide_true.
  - case_bool_decide; [done|]. apply IH.
Qed.

(** [o[k] = v] stores [v] under [k], unless [k] is a [__proto__] that is
    not yet an own property. *)
Lemma obj_get_obj_set o k v :
  k ≠ "__proto__" → obj_get k (obj_set k v o) = Some v.
Proof.
  intros Hk. unfold obj_set. destruct (obj_get k o) eqn:Hget.
  - apply obj_get_obj_replace. by rewrite Hget.
  - rewrite (bool_decide_false _ Hk). by apply obj_get_app_fresh.
Qed.

Lemma obj_get_obj_set_own o k v :
  is_Some (obj_get k o) → obj_get k (obj_set k v o) = Some v.
Proof.
  intros Hsome. unfold obj_set. destruct (obj_get k o) eqn:Hget.
  - apply obj_get_obj_replace. by rewrite Hget.
  - by destruct Hsome.
Qed.

End JSObjectFacts.

(** ** The Record Store *)

Lemma find_entry_Some (m : Mappings) (id k : string) (v : SheetRecord) :
  find_entry m id = Some (k, v) → (k, v) ∈ m ∧ scriptId v = id.
Proof.
  unfold find_entry. intros [Hin Hid]%List.find_some.
  apply list_elem_of_In in Hin. rewrite elem_of_Object_entries in Hin.
  apply bool_decide_eq_true in Hid. done.
Qed.

Lemma find_entry_None (m : Mappings) (id : string) :
  find_entry m id = None ↔ ∀ k v, (k, v) ∈ m → scriptId v ≠ id.
Proof.
  unfold find_entry. split.
  - intros Hnone k v Hin Hid.
    apply elem_of_Object_entries, list_elem_of_In in Hin.
    pose proof (List.find_none _ _ Hnone _ Hin) as Hf. simpl in Hf.
    by rewrite bool_decide_true in Hf.
  - intros Hall.
    destruct (List.find _ _) as [[k v]|] eqn:Hf; [|done].
    apply find_entry_Some in Hf as [Hin Hid]. by destruct (Hall k v).
Qed.

Lemma elem_of_existingClients (m : Mappings) (name : string) :
  name ∈ existingClients m ↔ ∃ k v, (k, v) ∈ m ∧ clientName v = name.
Proof.
  unfold existingClients, Object_values. rewrite list_elem_of_fmap. split.
  - intros (v & -> & [[k v'] [-> Hin]]%list_elem_of_fmap).
    exists k, v'. by rewrite elem_of_Object_entries in Hin.
  - intros (k & v & Hin & <-). exists v. split; [done|].
    apply list_elem_of_fmap. exists (k, v). by rewrite elem_of_Object_entries.
Qed.

(** ** POST /process-speech/:id *)

Section ProcessSpeech.
Context {fuse_lib : FuseLib} {xlsx_lib : XLSXLib}.
Implicit Types (st : State) (id q : string) (e : ExcelEntry) (r : Row).

Lemma question_toLowerCase_missing (question : option JSON) :
  is_missing question = true → question_toLowerCase question = Ok None.
Proof. by destruct question as [[]|]. Qed.

Lemma question_toLowerCase_other (question : option JSON) :
  is_missing question = false → is_string question = false →
  question_toLowerCase question
  = Throw (TypeError "req.body.question?.toLowerCase is not a function").
Proof. by destruct question as [[]|]. Qed.

(** [excelData[id]] reads [undefined] exactly for the ids that are no own
    property and no inherited name. *)
Lemma excel_get_Undefined (d : ExcelData) id :
  proto d = None →
  excel_get d id = Undefined ↔ own d !! id = None ∧ id ∉ Object_prototype_names.
Proof.
  intros Hp. unfold excel_get. rewrite Hp.
  destruct (own d !! id); [split; [done|by intros [? _]]|].
  case_bool_decide; split; try done; by intros [_ ?].
Qed.

(** Whatever the libraries, a name inherited from [Object.prototype] gets
    past the missing-index test and the handler throws. *)
Lemma process_speech_inherited st id (question : option JSON) :
  own (excelData st) !! id = None → proto (excelData st) = None →
  id ∈ Object_prototype_names → is_string question = true →
  process_speech id question st
  = (st, Uncaught (TypeError "Cannot read properties of undefined (reading 'search')")).
Proof.
  intros Hown Hp Hin Hq. destruct question as [[]|]; try done.
  unfold process_speech, excel_get. simpl. rewrite Hown, Hp.
  by rewrite bool_decide_true.
Qed.

(** A question that is neither a string nor missing makes the handler throw
    before it looks at the index table. *)
Lemma process_speech_not_text st id (question : option JSON) :
  is_missing question = false → is_string question = false →
  process_speech id question st
  = (st, Uncaught (TypeError "req.body.question?.toLowerCase is not a function")).
Proof.
  intros Hm Hs. unfold process_speech.
  by rewrite question_toLowerCase_other.
Qed.

(** After a restart the index table is empty: every id that is not an
    inherited name reads [undefined], whatever records the store holds. *)
Lemma restart_reads_undefined st id :
  id ∉ Object_prototype_names → excel_get (excelData (restart st)) id = Undefined.
Proof.
  intros Hid. unfold restart, startup, excel_get. simpl.
  rewrite lookup_empty. by rewrite bool_decide_false.
Qed.

(** X18: for every id under which [excelData] reads [undefined] and
    every question that is a string or is missing or null, the handler
    answers 404 with the no-data payload, throws nothing and leaves the
    state as it was. *)
Theorem ask_without_index st id (question : option JSON) :
  excel_get (excelData st) id = Undefined →
  is_string question || is_missing question = true →
  process_speech id question st = (st, Json 404 no_data).
Proof.
  intros Hget Hq. unfold process_speech.
  destruct question as [[]|]; try done; simpl; by rewrite Hget.
Qed.

(** C9, as amended: when an index exists under the id and the question is
    not a string, the reply is never the 200 answer-or-fallback response:
    the handler throws a [TypeError] and the state is unchanged.  For a
    missing or null question the exception is the one the search raises on
    an undefined pattern; for any other value it is raised by the call of
    [toLowerCase], before any search. *)
Theorem ask_without_string st id e (question : option JSON) :
  excel_get (excelData st) id = Entry e →
  is_string question = false →
  (∃ msg, process_speech id question st = (st, Uncaught (TypeError msg)))
  ∧ (∀ status body, process_speech id question st ≠ (st, Json status body))
  ∧ (is_missing question = true →
     ∃ ex, fuse_search (fuse e) None = Throw ex
           ∧ process_speech id question st = (st, Uncaught ex))
  ∧ (is_missing question = false →
     process_speech id question st
     = (st, Uncaught (TypeError "req.body.question?.toLowerCase is not a function"))).
Proof.
  intros Hget Hs. unfold process_speech.
  destruct question as [[]|]; try done; simpl; rewrite ?Hget; simpl;
    (split; [by eexists|split; [done|split]]); try done; intros _; by eexists.
Qed.

(** With a string question and an index, the reply is the Answer of the
    scorer's first result, or the fallback when there is none. *)
Lemma process_speech_string st id e q :
  excel_get (excelData st) id = Entry e →
  process_speech id (Some (JStr q)) st
  = (st, Json 200 (BAnswer match Fuse_search (options (fuse e)) (docs (fuse e)) (toLowerCase q) with
                           | item :: _ => item !! "Answer"
                           | [] => fallback
                           end)).
Proof. intros Hget. unfold process_speech. simpl. by rewrite Hget. Qed.


End ProcessSpeech.

(** ** POST /upload *)

Section Upload.
Context {xlsx_lib : XLSXLib}.
Implicit Types (st : State) (req : UploadRequest) (fn raw id cn url : string).

Lemma missing_columns_rejected (rows : list Row) :
  missing_columns rows → sheet_rejected rows = true.
Proof.
  destruct rows as [|r rest]; simpl; [done|].
  intros [-> | ->]; simpl; [done|]. apply orb_true_r.
Qed.

(** What a successful upload did. *)
Lemma upload_success_inv st req st' id fn cn url :
  upload req st = (st', Json 200 (BUploaded id fn cn url)) →
  id = number_toString (now req)
  ∧ url = "/ask/" +:+ id
  ∧ (∃ data raw, file req = Some (fn, data) ∧ body_clientName req = Some raw
                 ∧ cn = trim raw ∧ cn ∉ existingClients (scriptMappings st))
  ∧ scriptMappings st'
    = obj_set fn {| scriptId := id; redirectUrl := url; clientName := cn |} (scriptMappings st)
  ∧ mappings_file st' = Some (JSON_stringify (scriptMappings st'))
  ∧ (∃ rows, excelData st'
             = excel_set id {| sheet := rows; fuse := new_Fuse rows |} (excelData st)
             ∧ sheet_rejected rows = false)
  ∧ links_file st' = appendFile (link_line cn id fn url) (links_file st).
Proof.
  unfold upload, upload_handler, multer_single.
  destruct (file req) as [[fn' data]|] eqn:Hfile; [|by destruct (body_clientName req)].
  destruct (body_clientName req) as [raw|] eqn:Hname; [|done].
  case_bool_decide as Hraw; [done|]. simpl.
  case_bool_decide as Hdup; [done|].
  destruct (readFile _ fn') as [wb|ex]; [|done].
  destruct (sheet_rejected _) eqn:Hrej; [done|].
  intros [= <- <- <- <- <-]. simpl.
  split; [done|]. split; [done|]. split; [by exists data, raw|].
  split; [done|]. split; [done|]. split; [|done].
  by exists (sheet_to_json (first_sheet wb)).
Qed.

(** C3: an upload whose client name, as the handler reads it (trimmed), is
    the client name of a record of the store is answered 400 with the
    conflict message, and the Record Store, the mapping file, the Question
    Index table and the Link Log are what they were.  (The uploaded file
    itself has already been stored by multer.) *)
Theorem upload_existing_client st req fn (data : Buffer) raw k (rec : SheetRecord) :
  file req = Some (fn, data) →
  body_clientName req = Some raw → raw ≠ EmptyString →
  (k, rec) ∈ scriptMappings st → clientName rec = trim raw →
  ∃ st', upload req st
         = (st', Json 400 (BError "Client name already exists. Please choose a different name."))
         ∧ scriptMappings st' = scriptMappings st
         ∧ mappings_file st' = mappings_file st
         ∧ excelData st' = excelData st
         ∧ links_file st' = links_file st
         ∧ uploads st' = <[fn := data]> (uploads st).
Proof.
  intros Hfile Hname Hraw Hin Hcn.
  unfold upload, upload_handler, multer_single. rewrite Hfile, Hname. simpl.
  rewrite (bool_decide_false _ Hraw).
  rewrite bool_decide_true by (apply elem_of_existingClients; eauto).
  eexists. repeat split.
Qed.

(** X19: an accepted upload whose decoded sheet is empty, or whose first
    row lacks the Question or the Answer field, is answered 400 and nothing
    is rolled back: the Record Store is the one left by the assignment
    [scriptMappings[fileName] = record], the mapping file is its
    serialisation, so that the record is found under its file name in both
    for every file name but [__proto__]; no index is stored and the Link
    Log is not touched. *)
Theorem upload_rejected_sheet_keeps_record st req fn (data : Buffer) raw wb :
  file req = Some (fn, data) →
  body_clientName req = Some raw → raw ≠ EmptyString →
  trim raw ∉ existingClients (scriptMappings st) →
  XLSX_read data = Some wb →
  missing_columns (sheet_to_json (first_sheet wb)) →
  let record := {| scriptId := number_toString (now req);
                   redirectUrl := "/ask/" +:+ number_toString (now req);
                   clientName := trim raw |} in
  ∃ st', upload req st
         = (st', Json 400 (BError "The uploaded file is empty or missing required columns."))
         ∧ scriptMappings st' = obj_set fn record (scriptMappings st)
         ∧ mappings_file st' = Some (JSON_stringify (scriptMappings st'))
         ∧ (fn ≠ "__proto__" →
            obj_get fn (scriptMappings st') = Some record
            ∧ (fn, record) ∈ JSON_stringify (scriptMappings st'))
         ∧ excelData st' = excelData st
         ∧ links_file st' = links_file st.
Proof.
  intros Hfile Hname Hraw Hnew Hread Hmiss record.
  unfold upload, upload_handler, multer_single, readFile. rewrite Hfile, Hname. simpl.
  rewrite (bool_decide_false _ Hraw), (bool_decide_false _ Hnew).
  rewrite lookup_insert_eq, Hread, (missing_columns_rejected _ Hmiss).
  eexists. split; [reflexivity|]. simpl. fold record.
  split; [done|]. split; [done|]. split; [|done].
  intros Hfn. pose proof (obj_get_obj_set (scriptMappings st) fn record Hfn) as Hget.
  split; [done|]. apply elem_of_Object_entries. by apply obj_get_Some.
Qed.

End Upload.

(** ** The life of a sheet: upload, read, update, delete *)

Section Lifecycle.
Context {fuse_lib : FuseLib} {xlsx_lib : XLSXLib}.
Implicit Types (st : State) (req : UploadRequest) (fn id : string) (rec : SheetRecord).

(** Every reply of a run is the reply of its request in some state. *)
Lemma run_lookup (rqs : list Request) st (i : nat) (rq : Request) (reply : Reply) :
  rqs !! i = Some rq → (run rqs st).2 !! i = Some reply →
  ∃ sti, (handle rq sti).2 = reply.
Proof.
  revert st i. induction rqs as [|rq0 rest IH]; intros st i Hrq Hreply; [done|].
  simpl in Hreply.
  destruct (handle rq0 st) as [st1 reply0] eqn:Hh.
  destruct (run rest st1) as [st2 replies] eqn:Hr.
  destruct i as [|i]; simpl in *.
  - inversion Hrq; inversion Hreply; subst. exists st. by rewrite Hh.
  - apply (IH st1 i Hrq). by rewrite Hr.
Qed.

(** The Record Store after an upload: unchanged, or the store after one
    assignment of a record whose client name is trimmed. *)
Lemma upload_scriptMappings req st :
  scriptMappings (upload req st).1 = scriptMappings st
  ∨ ∃ fn id url raw,
      scriptMappings (upload req st).1
      = obj_set fn {| scriptId := id; redirectUrl := url; clientName := trim raw |}
          (scriptMappings st).
Proof.
  unfold upload, upload_handler, multer_single.
  destruct (file req) as [[fn data]|]; [|destruct (body_clientName req); by left].
  destruct (body_clientName req) as [raw|]; [|by left].
  case_bool_decide; [by left|]. simpl.
  case_bool_decide; [by left|].
  right. exists fn, (number_toString (now req)), ("/ask/" +:+ number_toString (now req)), raw.
  destruct (readFile _ fn); [|done]. by destruct (sheet_rejected _).
Qed.

(** Asking never changes the state. *)
Lemma process_speech_state id (question : option JSON) st :
  (process_speech id question st).1 = st.
Proof.
  unfold process_speech. destruct (question_toLowerCase question); [|done].
  destruct (excel_get _ _); try done. by destruct (fuse_search _ _).
Qed.

(** No request stores a client name that is not trimmed. *)
Lemma handle_names_trimmed (rq : Request) st :
  names_trimmed (scriptMappings st) → names_trimmed (scriptMappings (handle rq st).1).
Proof.
  intros Hinv. destruct rq as [req|id question|id|body|id]; simpl.
  - destruct (upload_scriptMappings req st) as [->|(fn & id & url & raw & ->)]; [done|].
    intros k v [[= -> ->]|[Hin _]]%elem_of_obj_set; [apply trim_idemp|by apply (Hinv k)].
  - by rewrite process_speech_state.
  - unfold get_excel. by destruct (find_entry _ _) as [[]|].
  - unfold update_excel.
    destruct (body_scriptId body), (body_sheet body); try done.
    case_bool_decide; [done|]. destruct (find_entry _ _) as [[]|]; [|done].
    destruct (book_append_sheet _ _ _); [|done]. by destruct (readFile _ _).
  - unfold delete_script. destruct (find_entry _ _) as [[fn rec]|]; [|done].
    destruct (links_file st); simpl; intros k v [Hin _]%elem_of_obj_delete;
      by apply (Hinv k).
Qed.

(** In every state of a run that starts with an empty store, the client
    names of the store are trimmed: a request's client name that equals a
    stored one is itself trimmed. *)
Lemma run_names_trimmed (rqs : list Request) st :
  names_trimmed (scriptMappings st) → names_trimmed (scriptMappings (run rqs st).1).
Proof.
  revert st. induction rqs as [|rq rest IH]; intros st Hinv; [done|].
  simpl. pose proof (handle_names_trimmed rq st Hinv) as H1.
  destruct (handle rq st) as [st1 reply]. specialize (IH st1 H1).
  by destruct (run rest st1) as [st2 replies].
Qed.

(** C4, as amended: two successful uploads of a run return the same
    scriptId exactly when [Date.now()] read the same value at both; they
    return different ids whenever the two clock readings differ. *)
Theorem scriptIds_of_a_run st (rqs : list Request) (i j : nat) req1 req2
    (id1 fn1 cn1 url1 id2 fn2 cn2 url2 : string) :
  rqs !! i = Some (Upload req1) → rqs !! j = Some (Upload req2) →
  (run rqs st).2 !! i = Some (Json 200 (BUploaded id1 fn1 cn1 url1)) →
  (run rqs st).2 !! j = Some (Json 200 (BUploaded id2 fn2 cn2 url2)) →
  id1 = id2 ↔ now req1 = now req2.
Proof.
  intros Hi Hj Hri Hrj.
  destruct (run_lookup _ _ _ _ _ Hi Hri) as [s1 H1].
  destruct (run_lookup _ _ _ _ _ Hj Hrj) as [s2 H2].
  simpl in H1, H2.
  destruct (upload req1 s1) as [s1' r1] eqn:Hu1.
  destruct (upload req2 s2) as [s2' r2] eqn:Hu2.
  simpl in H1, H2. subst r1 r2.
  apply upload_success_inv in Hu1 as (-> & _).
  apply upload_success_inv in Hu2 as (-> & _).
  split; [apply number_toString_inj|by intros ->].
Qed.

(** C8, as amended: a successful upload under the file name of an existing
    record whose scriptId has an index entry and is carried by no other
    record, when the new scriptId differs from the old one, puts the new
    record in the place of the old one and leaves the old scriptId's index
    entry where it was: asking under the old scriptId answers as before,
    from the old sheet, although no record of the store carries that
    scriptId any more. *)
Theorem reupload_keeps_old_index st req fn (data : Buffer) (old : SheetRecord)
    (e : ExcelEntry) st' (id' cn url : string) :
  file req = Some (fn, data) →
  obj_get fn (scriptMappings st) = Some old →
  own (excelData st) !! scriptId old = Some e →
  (∀ k v, (k, v) ∈ scriptMappings st → scriptId v = scriptId old → k = fn) →
  upload req st = (st', Json 200 (BUploaded id' fn cn url)) →
  id' ≠ scriptId old →
  obj_get fn (scriptMappings st')
  = Some {| scriptId := id'; redirectUrl := url; clientName := cn |}
  ∧ excel_get (excelData st') (scriptId old) = Entry e
  ∧ (∀ question, (process_speech (scriptId old) question st').2
                 = (process_speech (scriptId old) question st).2)
  ∧ find_entry (scriptMappings st') (scriptId old) = None
  ∧ get_excel (scriptId old) st' = (st', Json 404 (BError "File not found.")).
Proof.
  intros Hfile Hold Hidx Huniq Hup Hne.
  apply upload_success_inv in Hup as (_ & _ & _ & Hm & _ & (rows & He & _) & _).
  assert (Hown : own (excelData st') !! scriptId old = Some e).
  { rewrite He. unfold excel_set.
    destruct (_ && _); simpl; [done|]. by rewrite lookup_insert_ne. }
  assert (Hnone : find_entry (scriptMappings st') (scriptId old) = None).
  { apply find_entry_None. intros k v Hin Hid. rewrite Hm in Hin.
    apply elem_of_obj_set in Hin as [[= -> ->]|[Hin Hk]]; [done|].
    by apply Hk, (Huniq k v). }
  split; [rewrite Hm; apply obj_get_obj_set_own; by rewrite Hold|].
  split; [unfold excel_get; by rewrite Hown|].
  split.
  - intros question. unfold process_speech, excel_get. rewrite Hown, Hidx.
    destruct (question_toLowerCase question); [|done].
    by destruct (fuse_search _ _).
  - split; [done|]. unfold get_excel. by rewrite Hnone.
Qed.


(** C6, as amended: after a delete that was answered 200, under a
    non-empty scriptId that no other record carries, reading the sheet is
    answered 404, the spreadsheet file is gone, the index table has no own
    entry for the id and no line of the Link Log contains the id. *)
Theorem delete_then_get st id fn rec st' (msg : string) :
  id ≠ EmptyString →
  find_entry (scriptMappings st) id = Some (fn, rec) →
  (∀ k v, (k, v) ∈ scriptMappings st → scriptId v = id → k = fn) →
  delete_script id st = (st', Json 200 (BMessage msg)) →
  get_excel id st' = (st', Json 404 (BError "File not found."))
  ∧ uploads st' !! fn = None
  ∧ own (excelData st') !! id = None
  ∧ ∃ content, links_file st' = Some content
               ∧ ∀ line, line ∈ split_lines content → includes id line = false.
Proof.
  intros Hid Hfind Huniq. unfold delete_script. rewrite Hfind.
  destruct (links_file st) as [content|] eqn:Hlinks; [|done].
  intros [= <- _]. simpl.
  assert (Hnone : find_entry (obj_delete fn (scriptMappings st)) id = None).
  { apply find_entry_None. intros k v [Hin Hk]%elem_of_obj_delete Hv.
    by apply Hk, (Huniq k v). }
  split; [unfold get_excel; simpl; by rewrite Hnone|].
  split; [apply lookup_delete_eq|]. split; [apply lookup_delete_eq|].
  eexists. split; [done|]. intros line. by apply remove_links_clean.
Qed.

(** C10: when the record is found but [script_links.txt] does not exist,
    the delete is answered 500 although the spreadsheet file has been
    removed, the record has been taken out of the Record Store and of the
    mapping file, and the index entry has been dropped: the state after
    the failed request is not the state before it. *)
Theorem delete_fails_after_mutation st id fn rec :
  find_entry (scriptMappings st) id = Some (fn, rec) →
  links_file st = None →
  ∃ st', delete_script id st = (st', Json 500 (BError "Server error."))
         ∧ uploads st' !! fn = None
         ∧ scriptMappings st' = obj_delete fn (scriptMappings st)
         ∧ obj_get fn (scriptMappings st') = None
         ∧ mappings_file st' = Some (JSON_stringify (scriptMappings st'))
         ∧ own (excelData st') !! id = None
         ∧ links_file st' = None
         ∧ st' ≠ st.
Proof.
  intros Hfind Hlinks. unfold delete_script. rewrite Hfind, Hlinks.
  eexists. split; [reflexivity|]. simpl.
  split; [apply lookup_delete_eq|]. split; [done|].
  split; [apply obj_get_obj_delete|]. split; [done|].
  split; [apply lookup_delete_eq|]. split; [done|].
  intros Heq. apply find_entry_Some in Hfind as [Hin _].
  rewrite <- Heq in Hin. simpl in Hin.
  by apply elem_of_obj_delete in Hin as [_ ?].
Qed.

End Lifecycle.

(** ** The properties on the reference libraries *)

Module Examples.
Import Reference.

Example hours_state_reached :
  upload (upload_of "faq.xlsx" hours_sheet " Acme " 1700) fresh
  = (hours_state, Json 200 (BUploaded "1700" "faq.xlsx" "Acme" "/ask/1700")).
Proof. vm_compute. reflexivity. Qed.

(** The example of the specification: a case-differing question is
    answered, an unrelated one gets the fallback. *)
Example ask_hours :
  (@process_speech exact_fuse _ "1700" (Some (JStr "what are YOUR hours?")) hours_state).2
  = Json 200 (BAnswer (Some (CStr "9-5")))
  ∧ (@process_speech exact_fuse _ "1700" (Some (JStr "what is the weather")) hours_state).2
    = Json 200 (BAnswer fallback).
Proof. split; vm_compute; reflexivity. Qed.





(** C7, the failing input: [constructor] names no index of a fresh
    server, and asking under it is not answered 404: the guard reads the
    inherited [Object.prototype.constructor], which is truthy, and the
    handler throws at [fuse.search]. *)
Lemma ask_constructor_throws :
  own (excelData fresh) !! "constructor" = None
  ∧ @process_speech exact_fuse plain_xlsx "constructor" (Some (JStr "hi")) fresh
    = (fresh, Uncaught (TypeError "Cannot read properties of undefined (reading 'search')")).
Proof. split; vm_compute; reflexivity. Qed.

(** Without an index, a question that is a number throws as well. *)
Example ask_number_throws :
  @process_speech exact_fuse plain_xlsx "nope" (Some (JNum 5)) fresh
  = (fresh, Uncaught (TypeError "req.body.question?.toLowerCase is not a function")).
Proof. vm_compute. reflexivity. Qed.

Lemma ask_without_index_witness :
  @process_speech exact_fuse plain_xlsx "nope" (Some (JStr "hi")) fresh
  = (fresh, Json 404 no_data).
Proof.
  apply (@ask_without_index exact_fuse plain_xlsx fresh "nope" (Some (JStr "hi")));
    vm_compute; reflexivity.
Defined.

(** C9 as stated fails for a question that is a number: the handler
    throws at [toLowerCase] and the search, which would have raised a
    different exception, is never called. *)
Lemma ask_number_throws_before_search :
  @process_speech exact_fuse plain_xlsx "1700" (Some (JNum 5)) hours_state
  = (hours_state, Uncaught (TypeError "req.body.question?.toLowerCase is not a function"))
  ∧ @fuse_search exact_fuse (fuse hours_entry) None
    = Throw (TypeError "fuse.search: pattern is undefined").
Proof. split; vm_compute; reflexivity. Qed.

Lemma ask_without_string_witness :
  (∃ msg, @process_speech exact_fuse plain_xlsx "1700" None hours_state
          = (hours_state, Uncaught (TypeError msg)))
  ∧ (∀ status body, @process_speech exact_fuse plain_xlsx "1700" None hours_state
                    ≠ (hours_state, Json status body))
  ∧ (is_missing None = true →
     ∃ ex, @fuse_search exact_fuse (fuse hours_entry) None = Throw ex
           ∧ @process_speech exact_fuse plain_xlsx "1700" None hours_state
             = (hours_state, Uncaught ex))
  ∧ (is_missing None = false →
     @process_speech exact_fuse plain_xlsx "1700" None hours_state
     = (hours_state, Uncaught (TypeError "req.body.question?.toLowerCase is not a function"))).
Proof.
  apply (@ask_without_string exact_fuse plain_xlsx hours_state "1700" hours_entry None);
    vm_compute; reflexivity.
Defined.

Lemma upload_existing_client_witness :
  ∃ st', upload (upload_of "other.xlsx" twin_sheet "Acme  " 1800) hours_state
         = (st', Json 400 (BError "Client name already exists. Please choose a different name."))
         ∧ scriptMappings st' = scriptMappings hours_state
         ∧ mappings_file st' = mappings_file hours_state
         ∧ excelData st' = excelData hours_state
         ∧ links_file st' = links_file hours_state
         ∧ uploads st' = <["other.xlsx" := xlsx_file twin_sheet]> (uploads hours_state).
Proof.
  apply (@upload_existing_client plain_xlsx hours_state
           (upload_of "other.xlsx" twin_sheet "Acme  " 1800)
           "other.xlsx" (xlsx_file twin_sheet) "Acme  " "faq.xlsx" hours_record).
  - reflexivity.
  - reflexivity.
  - discriminate.
  - left.
  - vm_compute. reflexivity.
Defined.

Lemma upload_rejected_sheet_witness :
  let record := {| scriptId := number_toString 5;
                   redirectUrl := "/ask/" +:+ number_toString 5;
                   clientName := trim "Acme" |} in
  ∃ st', upload (upload_of "empty.xlsx" [] "Acme" 5) fresh
         = (st', Json 400 (BError "The uploaded file is empty or missing required columns."))
         ∧ scriptMappings st' = obj_set "empty.xlsx" record (scriptMappings fresh)
         ∧ mappings_file st' = Some (JSON_stringify (scriptMappings st'))
         ∧ ("empty.xlsx" ≠ "__proto__" →
            obj_get "empty.xlsx" (scriptMappings st') = Some record
            ∧ ("empty.xlsx", record) ∈ JSON_stringify (scriptMappings st'))
         ∧ excelData st' = excelData fresh
         ∧ links_file st' = links_file fresh.
Proof.
  apply (@upload_rejected_sheet_keeps_record plain_xlsx fresh
           (upload_of "empty.xlsx" [] "Acme" 5) "empty.xlsx" (xlsx_file []) "Acme"
           (xlsx_file [])).
  - reflexivity.
  - reflexivity.
  - discriminate.
  - intros Hin. vm_compute in Hin. inversion Hin.
  - reflexivity.
  - vm_compute. exact I.
Defined.

(** C5, the failing input: a file named [__proto__] whose sheet is empty.
    The upload is answered 400 for its sheet, and no record remains: the
    assignment [scriptMappings["__proto__"] = record] stored no property,
    so the Record Store and the mapping file written after it are empty
    and the generated scriptId resolves to nothing. *)
Lemma upload_proto_name_keeps_no_record :
  let reply_state := upload (upload_of "__proto__" [] "Acme" 5) fresh in
  reply_state.2 = Json 400 (BError "The uploaded file is empty or missing required columns.")
  ∧ scriptMappings reply_state.1 = []
  ∧ mappings_file reply_state.1 = Some []
  ∧ find_entry (scriptMappings reply_state.1) "5" = None
  ∧ uploads reply_state.1 !! "__proto__" = Some (xlsx_file []).
Proof. repeat split; vm_compute; reflexivity. Qed.

(** C4 as stated fails: two uploads handled at the same clock reading both
    succeed and return the same scriptId. *)
Lemma same_clock_same_scriptId :
  (@run exact_fuse plain_xlsx same_clock_run fresh).2
  = [ Json 200 (BUploaded "5" "a.xlsx" "A" "/ask/5");
      Json 200 (BUploaded "5" "b.xlsx" "B" "/ask/5") ].
Proof. vm_compute. reflexivity. Qed.

Lemma scriptIds_of_a_run_witness :
  "5" = "6" ↔ now (upload_of "a.xlsx" hours_sheet "A" 5) = now (upload_of "b.xlsx" hours_sheet "B" 6).
Proof.
  apply (@scriptIds_of_a_run exact_fuse plain_xlsx fresh two_uploads_run 0 1
           (upload_of "a.xlsx" hours_sheet "A" 5) (upload_of "b.xlsx" hours_sheet "B" 6)
           "5" "a.xlsx" "A" "/ask/5" "6" "b.xlsx" "B" "/ask/6");
    vm_compute; reflexivity.
Defined.

(** The record store after the same file name was uploaded again. *)
Example reupload_replaces_record :
  scriptMappings (upload (upload_of "faq.xlsx" twin_sheet "Beta" 1800) hours_state).1
  = [("faq.xlsx", {| scriptId := "1800"; redirectUrl := "/ask/1800"; clientName := "Beta" |})].
Proof. vm_compute. reflexivity. Qed.

(** C8 as stated fails when the second upload reads the clock value of
    the first: the index entry of the old scriptId is replaced, the new
    sheet answers under it and the new record carries it. *)
Lemma reupload_same_clock_replaces_index :
  let after := upload (upload_of "faq.xlsx" twin_sheet "Beta" 1700) hours_state in
  after.2 = Json 200 (BUploaded "1700" "faq.xlsx" "Beta" "/ask/1700")
  ∧ find_entry (scriptMappings after.1) "1700"
    = Some ("faq.xlsx",
            {| scriptId := "1700"; redirectUrl := "/ask/1700"; clientName := "Beta" |})
  ∧ (@process_speech exact_fuse plain_xlsx "1700" (Some (JStr "hi")) hours_state).2
    = Json 200 (BAnswer fallback)
  ∧ (@process_speech exact_fuse plain_xlsx "1700" (Some (JStr "hi")) after.1).2
    = Json 200 (BAnswer (Some (CStr "first"))).
Proof. repeat split; vm_compute; reflexivity. Qed.

(** Nor does the old scriptId answer after a restart, when its record has
    no index entry to begin with. *)
Example reupload_after_restart :
  let after := upload (upload_of "faq.xlsx" twin_sheet "Beta" 1800) (restart hours_state) in
  after.2 = Json 200 (BUploaded "1800" "faq.xlsx" "Beta" "/ask/1800")
  ∧ (@process_speech exact_fuse plain_xlsx "1700" (Some (JStr "what are your hours?"))
       after.1).2
    = Json 404 no_data.
Proof. split; vm_compute; reflexivity. Qed.

Lemma reupload_keeps_old_index_witness :
  let st' := (upload (upload_of "faq.xlsx" twin_sheet "Beta" 1800) hours_state).1 in
  obj_get "faq.xlsx" (scriptMappings st')
  = Some {| scriptId := "1800"; redirectUrl := "/ask/1800"; clientName := "Beta" |}
  ∧ excel_get (excelData st') (scriptId hours_record) = Entry hours_entry
  ∧ (∀ question,
       (@process_speech exact_fuse plain_xlsx (scriptId hours_record) question st').2
       = (@process_speech exact_fuse plain_xlsx (scriptId hours_record) question hours_state).2)
  ∧ find_entry (scriptMappings st') (scriptId hours_record) = None
  ∧ get_excel (scriptId hours_record) st' = (st', Json 404 (BError "File not found.")).
Proof.
  apply (@reupload_keeps_old_index exact_fuse plain_xlsx hours_state
           (upload_of "faq.xlsx" twin_sheet "Beta" 1800) "faq.xlsx" (xlsx_file twin_sheet)
           hours_record hours_entry).
  - reflexivity.
  - reflexivity.
  - reflexivity.
  - intros k v Hin _. apply list_elem_of_singleton in Hin. by inversion Hin.
  - vm_compute. reflexivity.
  - discriminate.
Defined.



(** C6 as stated fails when two live records share the scriptId: the
    delete removes the first of them and the read finds the second. *)
Lemma delete_then_get_shared_scriptId :
  (@run exact_fuse plain_xlsx (same_clock_run ++ [Delete "5"; GetExcel "5"]) fresh).2
  = [ Json 200 (BUploaded "5" "a.xlsx" "A" "/ask/5");
      Json 200 (BUploaded "5" "b.xlsx" "B" "/ask/5");
      Json 200 (BMessage "Script deleted successfully!");
      Json 200 (BSheet hours_sheet) ].
Proof. vm_compute. reflexivity. Qed.

Lemma delete_then_get_witness :
  let st' := (delete_script "1700" hours_state).1 in
  get_excel "1700" st' = (st', Json 404 (BError "File not found."))
  ∧ uploads st' !! "faq.xlsx" = None
  ∧ own (excelData st') !! "1700" = None
  ∧ ∃ content, links_file st' = Some content
               ∧ ∀ line, line ∈ split_lines content → includes "1700" line = false.
Proof.
  apply (@delete_then_get plain_xlsx hours_state "1700" "faq.xlsx" hours_record
           (delete_script "1700" hours_state).1 "Script deleted successfully!").
  - discriminate.
  - vm_compute. reflexivity.
  - intros k v Hin _. apply list_elem_of_singleton in Hin. by inversion Hin.
  - vm_compute. reflexivity.
Defined.

Lemma delete_fails_after_mutation_witness :
  ∃ st', delete_script "5" orphan_state = (st', Json 500 (BError "Server error."))
         ∧ uploads st' !! "empty.xlsx" = None
         ∧ scriptMappings st' = obj_delete "empty.xlsx" (scriptMappings orphan_state)
         ∧ obj_get "empty.xlsx" (scriptMappings st') = None
         ∧ mappings_file st' = Some (JSON_stringify (scriptMappings st'))
         ∧ own (excelData st') !! "5" = None
         ∧ links_file st' = None
         ∧ st' ≠ orphan_state.
Proof.
  apply (@delete_fails_after_mutation plain_xlsx orphan_state "5" "empty.xlsx"
           {| scriptId := "5"; redirectUrl := "/ask/5"; clientName := "Acme" |});
    vm_compute; reflexivity.
Defined.

End Examples.

(** * Further properties of the server *)

(** ** Object tables, continued *)

Section JSObjectMore.
Context {V : Type}.
Implicit Types (o : list (string * V)) (k : string) (v : V).

Lemma obj_get_obj_replace_ne o k k' v :
  k' ≠ k → obj_get k' (obj_replace k v o) = obj_get k' o.
Proof.
  intros Hne. induction o as [|[k0 v0] o IH]; simpl; [done|].
  case_bool_decide as Hk; simpl.
  - subst k0. rewrite !(bool_decide_false (k = k')) by done. apply IH.
  - rewrite IH. done.
Qed.

Lemma obj_get_app o o' k :
  obj_get k (o ++ o') = match obj_get k o with Some v => Some v | None => obj_get k o' end.
Proof.
  induction o as [|[k0 v0] o IH]; simpl; [done|]. by case_bool_decide.
Qed.

(** An assignment leaves the other keys alone. *)
Lemma obj_get_obj_set_ne o k k' v :
  k' ≠ k → obj_get k' (obj_set k v o) = obj_get k' o.
Proof.
  intros Hne. unfold obj_set. destruct (obj_get k o).
  - by apply obj_get_obj_replace_ne.
  - case_bool_decide; [done|]. rewrite obj_get_app. simpl.
    rewrite (bool_decide_false (k = k')) by done. by destruct (obj_get k' o).
Qed.

(** A delete leaves the other keys alone. *)
Lemma obj_get_obj_delete_ne o k k' :
  k' ≠ k → obj_get k' (obj_delete k o) = obj_get k' o.
Proof.
  intros Hne. unfold obj_delete. induction o as [|[k0 v0] o IH]; [done|].
  rewrite filter_cons. simpl. destruct (decide (k0 ≠ k)) as [Hk|Hk]; simpl.
  - by rewrite IH.
  - apply dec_stable in Hk. subst k0.
    rewrite (bool_decide_false (k = k')) by done. apply IH.
Qed.

Lemma obj_replace_keys o k v : (obj_replace k v o).*1 = o.*1.
Proof.
  unfold obj_replace. rewrite <- list_fmap_compose.
  apply list_fmap_ext. intros i [k0 v0] _. simpl. by case_bool_decide.
Qed.

Lemma obj_get_None_keys o k : obj_get k o = None → k ∉ o.*1.
Proof.
  rewrite obj_get_None. intros Hnone [[k0 v0] [-> Hin]]%list_elem_of_fmap.
  by apply (Hnone v0).
Qed.

Lemma obj_set_keys_NoDup o k v : NoDup o.*1 → NoDup (obj_set k v o).*1.
Proof.
  intros Hnd. unfold obj_set. destruct (obj_get k o) eqn:Hget.
  - by rewrite obj_replace_keys.
  - case_bool_decide; [done|]. rewrite fmap_app. simpl.
    apply NoDup_app. split; [done|]. split; [|apply NoDup_singleton].
    intros x Hx ->%list_elem_of_singleton. by apply (obj_get_None_keys _ _ Hget).
Qed.

Lemma obj_delete_keys_NoDup o k : NoDup o.*1 → NoDup (obj_delete k o).*1.
Proof.
  unfold obj_delete. induction o as [|[k0 v0] o IH]; [done|].
  rewrite filter_cons. simpl. intros [Hnotin Hnd]%NoDup_cons.
  destruct (decide (k0 ≠ k)); [|by apply IH].
  simpl. apply NoDup_cons. split; [|by apply IH].
  intros [[k1 v1] [Heq Hin]]%list_elem_of_fmap. simpl in Heq. subst k1.
  apply list_elem_of_filter in Hin as [_ Hin].
  apply Hnotin, list_elem_of_fmap. by exists (k0, v1).
Qed.

(** Enumeration is a rearrangement of the own properties. *)
Lemma Object_entries_Permutation o : Object_entries o ≡ₚ o.
Proof.
  unfold Object_entries. rewrite merge_sort_Permutation.
  apply filter_app_complement.
Qed.

End JSObjectMore.

(** A document whose keys are pairwise different is parsed into its own
    members, in their order. *)
Lemma JSON_parse_NoDup (doc : JSONDocument) : NoDup doc.*1 → JSON_parse doc = doc.
Proof.
  unfold JSON_parse.
  assert (Hgen : ∀ acc : Mappings, NoDup (acc ++ doc).*1 →
            foldl (λ o kv, match obj_get kv.1 o with
                           | Some _ => obj_replace kv.1 kv.2 o
                           | None => o ++ [kv]
                           end) acc doc = acc ++ doc).
  { induction doc as [|[k v] doc IH]; intros acc Hnd; simpl.
    - by rewrite app_nil_r.
    - assert (Hfresh : obj_get k acc = None).
      { apply obj_get_None. intros v' Hin.
        rewrite fmap_app in Hnd. apply NoDup_app in Hnd as (_ & Hdisj & _).
        apply (Hdisj k); [apply list_elem_of_fmap; by exists (k, v')|by left]. }
      rewrite Hfresh, IH; [by rewrite <- app_assoc|].
      by rewrite <- app_assoc. }
  intros Hnd. by apply (Hgen []).
Qed.

(** ** The index table *)

Lemma excel_get_excel_set (k : string) (e : ExcelEntry) (d : ExcelData) :
  excel_get (excel_set k e d) k = Entry e.
Proof.
  unfold excel_set, excel_get.
  destruct (bool_decide (k = "__proto__") && bool_decide (own d !! k = None)) eqn:Hp; simpl.
  - apply andb_true_iff in Hp as [Hk Hown].
    apply bool_decide_eq_true in Hk, Hown. by rewrite Hown, bool_decide_true.
  - by rewrite lookup_insert_eq.
Qed.

Lemma excel_set_own_ne (k k' : string) (e : ExcelEntry) (d : ExcelData) :
  k' ≠ k → own (excel_set k e d) !! k' = own d !! k'.
Proof.
  intros Hne. unfold excel_set. destruct (_ && _); simpl; [done|].
  by rewrite lookup_insert_ne.
Qed.

(** ** The store across requests and restarts *)

Section Persistence.
Context {fuse_lib : FuseLib} {xlsx_lib : XLSXLib}.
Implicit Types (st : State) (req : UploadRequest) (fn id : string) (rec : SheetRecord).

(** What a request does to the Record Store and to the mapping file:
    nothing, or one assignment or one delete followed by a rewrite of the
    file. *)
Lemma handle_store (rq : Request) st :
  let st' := (handle rq st).1 in
  (scriptMappings st' = scriptMappings st ∧ mappings_file st' = mappings_file st)
  ∨ ((∃ k v, scriptMappings st' = obj_set k v (scriptMappings st)
      ∨ scriptMappings st' = obj_delete k (scriptMappings st))
     ∧ mappings_file st' = Some (JSON_stringify (scriptMappings st'))).
Proof.
  destruct rq as [req|id question|id|body|id]; simpl.
  - unfold upload, upload_handler, multer_single.
    destruct (file req) as [[fn data]|]; [|destruct (body_clientName req); by left].
    destruct (body_clientName req) as [raw|]; [|by left].
    case_bool_decide; [by left|]. simpl.
    case_bool_decide; [by left|].
    right. destruct (readFile _ fn); [destruct (sheet_rejected _)|]; simpl;
      (split; [eexists _, _; by left|done]).
  - rewrite process_speech_state. by left.
  - unfold get_excel. destruct (find_entry _ _) as [[]|]; by left.
  - unfold update_excel.
    destruct (body_scriptId body), (body_sheet body); try by left.
    case_bool_decide; [by left|]. destruct (find_entry _ _) as [[]|]; [|by left].
    destruct (book_append_sheet _ _ _); [|by left]. destruct (readFile _ _); by left.
  - unfold delete_script. destruct (find_entry _ _) as [[fn rec]|]; [|by left].
    right. destruct (links_file st); simpl; (split; [exists fn, rec; by right|done]).
Qed.

Lemma handle_store_ok (rq : Request) st : store_ok st → store_ok (handle rq st).1.
Proof.
  intros [Hnd Hfile]. unfold store_ok.
  destruct (handle_store rq st) as [[-> ->]|[(k & v & Hm) ->]]; [done|].
  split; [|apply Object_entries_Permutation].
  destruct Hm as [-> | ->]; [by apply obj_set_keys_NoDup|by apply obj_delete_keys_NoDup].
Qed.

Lemma restart_store_ok st : store_ok st → store_ok (restart st).
Proof.
  intros [Hnd Hfile]. unfold store_ok, restart, startup. simpl.
  destruct (mappings_file st) as [doc|]; [|split; [constructor|done]].
  assert (Hdoc : NoDup doc.*1) by by rewrite Hfile.
  rewrite (JSON_parse_NoDup _ Hdoc). done.
Qed.

Lemma life_preserves_store_ok (events : list Event) st :
  store_ok st → store_ok (life events st).
Proof.
  revert st. induction events as [|[rq|] rest IH]; intros st Hok; simpl; [done|..].
  - by apply IH, handle_store_ok.
  - by apply IH, restart_store_ok.
Qed.

(** X1: in every state that a process started without a mapping file
    reaches, whatever requests it handles and however often it is
    restarted, the file names of the Record Store are pairwise different
    and the mapping file holds exactly the records of the store. *)
Theorem life_store_ok (events : list Event) (lf : option string) (up : gmap string Buffer) :
  store_ok (life events (startup None lf up)).
Proof.
  apply life_preserves_store_ok. split; [constructor|done].
Qed.

(** X2: when the store and the mapping file agree, a restart brings back
    exactly the records of the store, the same ids resolve, and the index
    table comes back empty. *)
Theorem restart_keeps_records st :
  store_ok st →
  scriptMappings (restart st) ≡ₚ scriptMappings st
  ∧ (∀ id, find_entry (scriptMappings (restart st)) id = None
           ↔ find_entry (scriptMappings st) id = None)
  ∧ excelData (restart st) = excel_empty
  ∧ uploads (restart st) = uploads st.
Proof.
  intros [Hnd Hfile].
  assert (Hperm : scriptMappings (restart st) ≡ₚ scriptMappings st).
  { unfold restart, startup. simpl.
    destruct (mappings_file st) as [doc|]; [|by rewrite Hfile].
    rewrite JSON_parse_NoDup; [done|]. by rewrite Hfile. }
  split; [done|]. split; [|done].
  intros id. rewrite !find_entry_None.
  split; intros Hall k v Hin; apply (Hall k v).
  - by rewrite Hperm.
  - by rewrite <- Hperm.
Qed.

(** X3: the index does not survive a restart: right after one, asking
    under any id that is not an inherited name, with a question that is a
    string or is missing, is answered 404 with the no-data payload, also
    for an id whose sheet was indexed before. *)
Theorem restart_forgets_index st id (question : option JSON) :
  id ∉ Object_prototype_names →
  is_string question || is_missing question = true →
  process_speech id question (restart st) = (restart st, Json 404 no_data).
Proof.
  intros Hid Hq. unfold process_speech.
  rewrite (restart_reads_undefined st id Hid).
  by destruct question as [[]|].
Qed.

End Persistence.

(** ** Uploads, continued *)

Section UploadMore.
Context {fuse_lib : FuseLib} {xlsx_lib : XLSXLib}.
Implicit Types (st : State) (req : UploadRequest) (fn id : string) (rec : SheetRecord).

(** X4: an upload is answered 200 exactly when it carries a file and a
    non-empty client name, the trimmed client name is not the client name
    of a record of the store, the stored file can be read, and the first
    row of its first sheet has a truthy Question and a truthy Answer. *)
Theorem upload_succeeds_iff req st :
  (∃ st' id fn cn url, upload req st = (st', Json 200 (BUploaded id fn cn url)))
  ↔ ∃ fn data raw wb,
      file req = Some (fn, data) ∧ body_clientName req = Some raw
      ∧ raw ≠ EmptyString
      ∧ (trim raw ∉ existingClients (scriptMappings st))
      ∧ XLSX_read data = Some wb
      ∧ sheet_rejected (sheet_to_json (first_sheet wb)) = false.
Proof.
  unfold upload, upload_handler, multer_single, readFile. split.
  - intros (st' & id & fn & cn & url & Hup).
    destruct (file req) as [[fn' data]|]; [|by destruct (body_clientName req)].
    destruct (body_clientName req) as [raw|]; [|done].
    case_bool_decide as Hraw; [done|]. simpl in Hup.
    case_bool_decide as Hdup; [done|].
    rewrite lookup_insert_eq in Hup.
    destruct (XLSX_read data) as [wb|] eqn:Hread; [|done].
    destruct (sheet_rejected _) eqn:Hrej; [done|].
    by exists fn', data, raw, wb.
  - intros (fn & data & raw & wb & -> & -> & Hraw & Hdup & Hread & Hrej). simpl.
    rewrite (bool_decide_false _ Hraw), (bool_decide_false _ Hdup).
    rewrite lookup_insert_eq, Hread, Hrej. by eexists _, _, _, _, _.
Qed.

(** X5: after a successful upload, asking under the returned scriptId
    with a string is never answered 404: the index holds the rows decoded
    from the uploaded file, and the reply is the Answer of the row the
    scorer ranks first among them, or the fallback. *)
Theorem upload_then_ask req st st' (id fn cn url : string) :
  upload req st = (st', Json 200 (BUploaded id fn cn url)) →
  ∃ data wb,
    file req = Some (fn, data) ∧ XLSX_read data = Some wb
    ∧ let rows := sheet_to_json (first_sheet wb) in
      excel_get (excelData st') id = Entry {| sheet := rows; fuse := new_Fuse rows |}
      ∧ ∀ q, process_speech id (Some (JStr q)) st'
             = (st', Json 200 (BAnswer match Fuse_search server_options rows (toLowerCase q) with
                                       | item :: _ => item !! "Answer"
                                       | [] => fallback
                                       end)).
Proof.
  unfold upload, upload_handler, multer_single, readFile.
  destruct (file req) as [[fn' data]|]; [|by destruct (body_clientName req)].
  destruct (body_clientName req) as [raw|]; [|done].
  case_bool_decide as Hraw; [done|]. simpl.
  case_bool_decide as Hdup; [done|].
  rewrite lookup_insert_eq.
  destruct (XLSX_read data) as [wb|] eqn:Hread; [|done].
  destruct (sheet_rejected _) eqn:Hrej; [done|].
  intros [= <- <- <- <- <-]. exists data, wb. split; [done|]. split; [done|].
  simpl. split; [apply excel_get_excel_set|].
  intros q.
  rewrite (process_speech_string _ _
             {| sheet := sheet_to_json (first_sheet wb);
                fuse := new_Fuse (sheet_to_json (first_sheet wb)) |} q); [done|].
  simpl. apply excel_get_excel_set.
Qed.

(** X6: an upload leaves alone every record stored under another file
    name, every other file of the upload directory and every index entry
    under another id than the one it generates. *)
Theorem upload_frame req st (k : string) :
  (∀ data, file req ≠ Some (k, data)) →
  let st' := (upload req st).1 in
  obj_get k (scriptMappings st') = obj_get k (scriptMappings st)
  ∧ uploads st' !! k = uploads st !! k
  ∧ (k ≠ number_toString (now req) → own (excelData st') !! k = own (excelData st) !! k).
Proof.
  intros Hk. unfold upload, upload_handler, multer_single.
  destruct (file req) as [[fn data]|] eqn:Hfile; [|by destruct (body_clientName req)].
  assert (Hne : k ≠ fn) by (intros ->; by apply (Hk data)).
  assert (Hup : (<[fn := data]> (uploads st) : gmap string Buffer) !! k = uploads st !! k)
    by by apply lookup_insert_ne.
  destruct (body_clientName req) as [raw|]; [|done].
  case_bool_decide; [done|]. simpl.
  case_bool_decide; [done|].
  destruct (readFile _ fn); [destruct (sheet_rejected _)|]; simpl;
    (split; [by apply obj_get_obj_set_ne|split; [done|]]); try done.
  intros Hid. by apply excel_set_own_ne.
Qed.

(** X7: an upload turned down for a missing field or for its client
    name has all the same replaced the file of its name in the upload
    directory: a record stored under that file name is untouched, its index
    still answers from the old rows, and reading its sheet now returns the
    rows of the refused file. *)
Theorem refused_upload_replaces_file req st fn (data : Buffer) id rec wb :
  file req = Some (fn, data) →
  (upload req st).2 = Json 400 (BError "File and client name are required.")
  ∨ (upload req st).2
    = Json 400 (BError "Client name already exists. Please choose a different name.") →
  find_entry (scriptMappings st) id = Some (fn, rec) →
  XLSX_read data = Some wb →
  let st' := (upload req st).1 in
  scriptMappings st' = scriptMappings st
  ∧ excelData st' = excelData st
  ∧ get_excel id st' = (st', Json 200 (BSheet (sheet_to_json (first_sheet wb)))).
Proof.
  intros Hfile Hreply Hfind Hread. revert Hreply.
  unfold upload, upload_handler, multer_single. rewrite Hfile.
  assert (Hget : ∀ e mf lf,
    get_excel id {| scriptMappings := scriptMappings st; excelData := e; mappings_file := mf;
                    links_file := lf; uploads := <[fn := data]> (uploads st) |}
    = ({| scriptMappings := scriptMappings st; excelData := e; mappings_file := mf;
          links_file := lf; uploads := <[fn := data]> (uploads st) |},
       Json 200 (BSheet (sheet_to_json (first_sheet wb))))).
  { intros e mf lf. unfold get_excel, readFile. simpl.
    by rewrite Hfind, lookup_insert_eq, Hread. }
  destruct (body_clientName req) as [raw|]; simpl; [|by intros _].
  case_bool_decide; simpl; [by intros _|].
  case_bool_decide; simpl; [by intros _|].
  destruct (readFile _ fn); [destruct (sheet_rejected _)|]; simpl; by intros [|].
Qed.

End UploadMore.

(** ** Update and delete, continued *)

Section UpdateDeleteMore.
Context {fuse_lib : FuseLib} {xlsx_lib : XLSXLib}.
Implicit Types (st : State) (fn id : string) (rec : SheetRecord).

(** X8: an update never touches the Record Store, the mapping file or the
    Link Log; in the upload directory it writes at most the file of the
    record found under the scriptId of the body, and in the index table at
    most the entry under that scriptId. *)
Theorem update_frame (body : UpdateBody) st :
  let st' := (update_excel body st).1 in
  scriptMappings st' = scriptMappings st
  ∧ mappings_file st' = mappings_file st
  ∧ links_file st' = links_file st
  ∧ (∀ k, (∀ id rec, body_scriptId body = Some id →
                     find_entry (scriptMappings st) id ≠ Some (k, rec)) →
          uploads st' !! k = uploads st !! k)
  ∧ (∀ k, body_scriptId body ≠ Some k → own (excelData st') !! k = own (excelData st) !! k).
Proof.
  unfold update_excel.
  destruct (body_scriptId body) as [id|], (body_sheet body) as [rows|]; try done.
  case_bool_decide; [done|].
  destruct (find_entry _ _) as [[fn rec]|] eqn:Hfind; [|done].
  destruct (book_append_sheet _ _ _) as [wb|]; [|done].
  assert (Hup : ∀ k, (∀ id0 rec0, Some id = Some id0 →
                                  find_entry (scriptMappings st) id0 ≠ Some (k, rec0)) →
            (<[fn := XLSX_write wb]> (uploads st) : gmap string Buffer) !! k = uploads st !! k).
  { intros k Hk. apply lookup_insert_ne. intros ->. by apply (Hk id rec). }
  destruct (readFile _ _); simpl.
  - do 3 (split; [done|]). split; [exact Hup|].
    intros k Hk. apply excel_set_own_ne. by intros ->.
  - do 3 (split; [done|]). split; [exact Hup|done].
Qed.

(** X9: after an update of a record found under a non-empty scriptId,
    with rows that the codec writes and reads back unchanged, the index
    under that scriptId is built over exactly those rows, whatever it held
    before, and asking with a string answers from them. *)
Theorem update_then_ask st id (rows : list Row) fn rec :
  id ≠ EmptyString →
  find_entry (scriptMappings st) id = Some (fn, rec) →
  codec_round_trips rows →
  ∃ st', update_excel {| body_scriptId := Some id; body_sheet := Some rows |} st
         = (st', Json 200 updated_message)
         ∧ excel_get (excelData st') id = Entry {| sheet := rows; fuse := new_Fuse rows |}
         ∧ ∀ q, process_speech id (Some (JStr q)) st'
                = (st', Json 200 (BAnswer match Fuse_search server_options rows (toLowerCase q) with
                                          | item :: _ => item !! "Answer"
                                          | [] => fallback
                                          end)).
Proof.
  intros Hid Hfind (wb & Hread & Hrows).
  unfold update_excel. simpl.
  rewrite (bool_decide_false _ Hid), Hfind.
  unfold book_append_sheet, book_new. simpl.
  unfold readFile. rewrite lookup_insert_eq, Hread, Hrows.
  eexists. split; [reflexivity|]. simpl.
  split; [apply excel_get_excel_set|]. intros q.
  rewrite (process_speech_string _ _ {| sheet := rows; fuse := new_Fuse rows |} q); [done|].
  simpl. apply excel_get_excel_set.
Qed.

(** X10: a delete leaves alone every record stored under another file
    name than the one it found, every other file of the upload directory
    and every index entry under another id. *)
Theorem delete_frame st id (k : string) :
  (∀ rec, find_entry (scriptMappings st) id ≠ Some (k, rec)) →
  let st' := (delete_script id st).1 in
  obj_get k (scriptMappings st') = obj_get k (scriptMappings st)
  ∧ uploads st' !! k = uploads st !! k
  ∧ (k ≠ id → own (excelData st') !! k = own (excelData st) !! k).
Proof.
  intros Hk. unfold delete_script.
  destruct (find_entry _ _) as [[fn rec]|] eqn:Hfind; [|done].
  assert (Hne : k ≠ fn) by (intros ->; by apply (Hk rec)).
  destruct (links_file st); simpl;
    (split; [by apply obj_get_obj_delete_ne|split; [by apply lookup_delete_ne|]]);
    intros Hid; by apply lookup_delete_ne.
Qed.

(** X11: the rewrite of the Link Log keeps exactly the lines that do not
    contain the id, in their order, and so drops the line of every other
    script whose line contains the id as a substring; when every line
    contains it, the log is left empty. *)
Theorem remove_links_lines (id content : string) :
  let kept := filter (λ line, includes id line = false) (split_lines content) in
  (kept ≠ [] → split_lines (remove_links id content) = kept)
  ∧ (kept = [] → remove_links id content = EmptyString).
Proof.
  intros kept. unfold remove_links. fold kept. split.
  - intros Hne. apply split_join_lines; [done|].
    apply Forall_forall. intros l [_ Hl]%list_elem_of_filter.
    by apply (proj1 (Forall_forall _ _) (split_lines_no_newline content)).
  - by intros ->.
Qed.

(** X12: under a scriptId that no record of the store carries, reading,
    updating and deleting are all answered 404 and change nothing. *)
Theorem unknown_scriptId_404 st id :
  (∀ k v, (k, v) ∈ scriptMappings st → scriptId v ≠ id) →
  get_excel id st = (st, Json 404 (BError "File not found."))
  ∧ delete_script id st = (st, Json 404 (BError "Script not found."))
  ∧ ∀ rows, id ≠ EmptyString →
            update_excel {| body_scriptId := Some id; body_sheet := Some rows |} st
            = (st, Json 404 (BError "File not found.")).
Proof.
  intros Hnone%find_entry_None.
  unfold get_excel, delete_script, update_excel. simpl. rewrite Hnone.
  split; [done|]. split; [done|]. intros rows Hid. by rewrite (bool_decide_false _ Hid).
Qed.

End UpdateDeleteMore.

(** ** GET /script-links *)

Lemma append_cons (x : ascii) (a b : string) : String x a +:+ b = String x (a +:+ b).
Proof. reflexivity. Qed.

Lemma append_nil (b : string) : EmptyString +:+ b = b.
Proof. reflexivity. Qed.

Lemma append_assoc (a b c : string) : (a +:+ b) +:+ c = a +:+ (b +:+ c).
Proof.
  induction a as [|x a IH]; [done|]. rewrite !append_cons. by rewrite IH.
Qed.

Lemma has_newline_app (a b : string) :
  has_newline (a +:+ b) = has_newline a || has_newline b.
Proof.
  induction a as [|x a IH]; [done|]. rewrite append_cons. simpl.
  by rewrite IH, orb_assoc.
Qed.

Lemma all_units_app (p : ascii → bool) (a b : string) :
  all_units p (a +:+ b) = all_units p a && all_units p b.
Proof.
  induction a as [|x a IH]; [done|]. rewrite append_cons. simpl.
  by rewrite IH, andb_assoc.
Qed.

Lemma all_units_impl (p q : ascii → bool) (s : string) :
  (∀ c, p c = true → q c = true) → all_units p s = true → all_units q s = true.
Proof.
  intros Hpq. induction s as [|x s IH]; simpl; [done|].
  intros [Hx Hs]%andb_true_iff. by rewrite (Hpq _ Hx), IH.
Qed.

Lemma starts_with_app (p s : string) : starts_with p (p +:+ s) = true.
Proof.
  induction p as [|x p IH]; [by destruct s|]. rewrite append_cons. simpl.
  by rewrite bool_decide_true.
Qed.

Lemma skip_app (p s : string) : skip (String.length p) (p +:+ s) = s.
Proof. induction p as [|x p IH]; [by destruct s|]. by rewrite append_cons. Qed.

Lemma lazy_group_hit {A} (sep : string) (k : string → option A) (s : string) (x : A) :
  starts_with sep s = true → k (skip (String.length sep) s) = Some x →
  lazy_group sep k s = Some (EmptyString, x).
Proof. intros Hs Hk. destruct s; simpl; by rewrite Hs, Hk. Qed.

Lemma lazy_group_miss {A} (sep : string) (k : string → option A) (c : ascii) (r : string) :
  starts_with sep (String c r) = false → is_line_terminator c = false →
  lazy_group sep k (String c r)
  = match lazy_group sep k r with
    | Some (g, a) => Some (String c g, a)
    | None => None
    end.
Proof. intros Hs Hc. simpl. simpl in Hs. by rewrite Hs, Hc. Qed.

Lemma is_comma_false (c : ascii) : is_comma c = false → c ≠ ","%char.
Proof. by intros Hc ->. Qed.

(** A lazy group reads a plain field up to the separator that follows it. *)
Lemma lazy_group_field {A} (sep' : string) (k : string → option A) (a rest : string) (x : A) :
  plain_field a = true → k rest = Some x →
  lazy_group (String ","%char sep') k (a +:+ String ","%char sep' +:+ rest) = Some (a, x).
Proof.
  intros Ha Hk. induction a as [|c a IH].
  - rewrite append_nil. apply lazy_group_hit; [apply starts_with_app|]. by rewrite skip_app.
  - simpl in Ha. apply andb_true_iff in Ha as [Hc Ha].
    apply andb_true_iff in Hc as [Hcomma Hterm].
    apply negb_true_iff in Hcomma, Hterm.
    change (String c a +:+ String ","%char sep' +:+ rest)
      with (String c (a +:+ String ","%char sep' +:+ rest)).
    rewrite lazy_group_miss, (IH Ha); [done| |done].
    simpl. rewrite bool_decide_false; [done|].
    intros Heq. by apply (is_comma_false c).
Qed.

Lemma greedy_dots_plain (u : string) :
  all_units (λ c, negb (is_line_terminator c)) u = true → greedy_dots u = u.
Proof.
  induction u as [|c u IH]; simpl; [done|].
  intros [Hc Hu]%andb_true_iff. apply negb_true_iff in Hc. by rewrite Hc, IH.
Qed.

Lemma search_from_hit {A} (m : string → option A) (s : string) (x : A) :
  m s = Some x → search_from m s = Some x.
Proof. intros Hm. destruct s; simpl; by rewrite Hm. Qed.

Lemma is_ws_terminator (c : ascii) : is_ws c = false → is_line_terminator c = false.
Proof. destruct c as [[] [] [] [] [] [] [] []]; by vm_compute. Qed.

Lemma is_ws_newline (c : ascii) : is_ws c = false → is_newline c = false.
Proof. destruct c as [[] [] [] [] [] [] [] []]; by vm_compute. Qed.

Lemma is_terminator_newline (c : ascii) : is_line_terminator c = false → is_newline c = false.
Proof. destruct c as [[] [] [] [] [] [] [] []]; by vm_compute. Qed.

Lemma plain_id_field (s : string) : plain_id s = true → plain_field s = true.
Proof.
  intros [_ Hs]%andb_true_iff. revert Hs. apply all_units_impl.
  intros c [Hc Hw]%andb_true_iff. apply negb_true_iff in Hw.
  by rewrite Hc, (is_ws_terminator _ Hw).
Qed.

Lemma plain_field_no_terminator (s : string) :
  plain_field s = true → all_units (λ c, negb (is_line_terminator c)) s = true.
Proof. apply all_units_impl. by intros c [_ Hc]%andb_true_iff. Qed.

Lemma plain_field_no_newline (s : string) : plain_field s = true → has_newline s = false.
Proof.
  induction s as [|c s IH]; simpl; [done|].
  intros [[_ Hc]%andb_true_iff Hs]%andb_true_iff. apply negb_true_iff in Hc.
  by rewrite (is_terminator_newline _ Hc), (IH Hs).
Qed.

(** The pattern reads the line of an entry back into its fields. *)
Lemma parse_link_body (entry : string * string * string) :
  plain_entry entry = true → parse_link (link_body entry) = Some (listed entry).
Proof.
  destruct entry as [[cn id] fn]. unfold plain_entry.
  intros [[Hcn Hid]%andb_true_iff Hfn]%andb_true_iff.
  pose proof (plain_id_field _ Hid) as Hidf.
  apply search_from_hit. unfold link_pattern_here, link_body, listed.
  set (u := "http://65.1.176.171:8080/ask/" +:+ id).
  assert (Hu : greedy_dots u = u).
  { apply greedy_dots_plain. unfold u. rewrite all_units_app.
    rewrite (plain_field_no_terminator _ Hidf). reflexivity. }
  rewrite starts_with_app.
  change (skip 8 ("Client: " +:+ ?x)) with x.
  set (k3 := lazy_group ", URL: " (λ rest, Some (greedy_dots rest))).
  set (k2 := lazy_group ", File: " k3).
  assert (H3 : k3 (fn +:+ ", URL: " +:+ u) = Some (fn, u)).
  { apply (lazy_group_field " URL: "); [done|]. by rewrite Hu. }
  assert (H2 : k2 (id +:+ ", File: " +:+ fn +:+ ", URL: " +:+ u) = Some (id, (fn, u))).
  { by apply (lazy_group_field " File: "). }
  by rewrite (lazy_group_field " Script ID: " k2 cn _ _ Hcn H2).
Qed.

Lemma trimEnd_app_newline (t : string) :
  trimEnd (t +:+ String newline EmptyString) = trimEnd t.
Proof.
  induction t as [|c t IH]; [done|]. rewrite append_cons. simpl. by rewrite IH.
Qed.

Lemma last_unit_ok_nonempty (s : string) : last_unit_ok s = true → s ≠ EmptyString.
Proof. by destruct s. Qed.

Lemma trimEnd_last_unit_ok (s : string) : last_unit_ok s = true → trimEnd s = s.
Proof.
  induction s as [|c s IH]; [done|]. destruct s as [|a s].
  - simpl. intros Hc. apply negb_true_iff in Hc. by rewrite Hc.
  - intros Hs. change (last_unit_ok (String a s) = true) in Hs.
    change (trimEnd (String c (String a s)))
      with (match trimEnd (String a s) with
            | EmptyString => if is_ws c then EmptyString else String c EmptyString
            | String a' r => String c (String a' r)
            end).
    by rewrite (IH Hs).
Qed.

Lemma last_unit_ok_app (a b : string) :
  b ≠ EmptyString → last_unit_ok (a +:+ b) = last_unit_ok b.
Proof.
  intros Hb. induction a as [|c a IH]; [done|]. rewrite append_cons.
  destruct (a +:+ b) as [|x r] eqn:Hab.
  - destruct a; [by rewrite append_nil in Hab|by rewrite append_cons in Hab].
  - by rewrite <- IH.
Qed.

Lemma plain_id_last_unit_ok (s : string) : plain_id s = true → last_unit_ok s = true.
Proof.
  intros [Hne Hs]%andb_true_iff. apply bool_decide_eq_true in Hne.
  induction s as [|c s IH]; [done|]. simpl in Hs.
  apply andb_true_iff in Hs as [[_ Hc]%andb_true_iff Hs].
  destruct s as [|a s]; [done|]. by apply IH.
Qed.

Lemma link_body_last_unit_ok (entry : string * string * string) :
  plain_entry entry = true → last_unit_ok (link_body entry) = true.
Proof.
  destruct entry as [[cn id] fn]. unfold plain_entry, link_body.
  intros [[_ Hid]%andb_true_iff _]%andb_true_iff.
  pose proof (plain_id_last_unit_ok _ Hid) as Hlast.
  pose proof (last_unit_ok_nonempty _ Hlast) as Hne.
  rewrite <- !append_assoc. by rewrite last_unit_ok_app.
Qed.

Lemma link_body_no_newline (entry : string * string * string) :
  plain_entry entry = true → has_newline (link_body entry) = false.
Proof.
  destruct entry as [[cn id] fn]. unfold plain_entry, link_body.
  intros [[Hcn Hid]%andb_true_iff Hfn]%andb_true_iff.
  rewrite !has_newline_app.
  rewrite (plain_field_no_newline _ Hcn), (plain_field_no_newline _ Hfn).
  by rewrite (plain_field_no_newline _ (plain_id_field _ Hid)).
Qed.

(** A log of appended lines is its lines joined, and a final line feed. *)
Lemma log_text_join (entries : list (string * string * string)) :
  entries ≠ [] →
  log_text entries = join_lines (link_body <$> entries) +:+ String newline EmptyString.
Proof.
  induction entries as [|e rest IH]; [done|]. intros _.
  destruct rest as [|e' rest]; [done|].
  change (log_text (e :: e' :: rest))
    with (link_body e +:+ String newline (log_text (e' :: rest))).
  rewrite IH by done.
  change (join_lines (link_body <$> e :: e' :: rest))
    with (link_body e +:+ String newline (join_lines (link_body <$> e' :: rest))).
  by rewrite append_assoc, append_cons.
Qed.

Lemma join_lines_last_unit_ok (entries : list (string * string * string)) :
  entries ≠ [] → Forall (λ e, plain_entry e = true) entries →
  last_unit_ok (join_lines (link_body <$> entries)) = true.
Proof.
  induction entries as [|e rest IH]; [done|]. intros _ Hall.
  inversion Hall as [|? ? He Hrest]; subst.
  destruct rest as [|e' rest]; [by apply link_body_last_unit_ok|].
  change (join_lines (link_body <$> e :: e' :: rest))
    with (link_body e +:+ String newline (join_lines (link_body <$> e' :: rest))).
  specialize (IH ltac:(done) Hrest).
  rewrite last_unit_ok_app by done.
  pose proof (last_unit_ok_nonempty _ IH) as Hne.
  destruct (join_lines (link_body <$> e' :: rest)); done.
Qed.

(** [trim] takes the final line feed off a log of appended lines. *)
Lemma trim_log_text (entries : list (string * string * string)) :
  entries ≠ [] → Forall (λ e, plain_entry e = true) entries →
  trim (log_text entries) = join_lines (link_body <$> entries).
Proof.
  intros Hne Hall. rewrite log_text_join by done. unfold trim.
  assert (Hstart : trimStart (join_lines (link_body <$> entries) +:+ String newline EmptyString)
                   = join_lines (link_body <$> entries) +:+ String newline EmptyString).
  { destruct entries as [|[[cn id] fn] rest]; [done|]. by destruct rest. }
  rewrite Hstart, trimEnd_app_newline.
  by apply trimEnd_last_unit_ok, join_lines_last_unit_ok.
Qed.

(** The listing of a log of appended lines is the list of its entries. *)
Lemma scripts_of_log_text (entries : list (string * string * string)) :
  Forall (λ e, plain_entry e = true) entries →
  scripts_of (log_text entries) = listed <$> entries.
Proof.
  intros Hall. destruct (decide (entries = [])) as [->|Hne]; [done|].
  unfold scripts_of. rewrite trim_log_text by done.
  rewrite split_join_lines.
  - clear Hne. induction Hall as [|e rest He _ IH]; [done|].
    rewrite !fmap_cons.
    change (omap parse_link (link_body e :: (link_body <$> rest)))
      with (match parse_link (link_body e) with
            | Some y => y :: omap parse_link (link_body <$> rest)
            | None => omap parse_link (link_body <$> rest)
            end).
    by rewrite (parse_link_body _ He), IH.
  - by destruct entries.
  - apply Forall_fmap. eapply Forall_impl; [exact Hall|].
    intros e He. by apply link_body_no_newline.
Qed.

Lemma log_text_app (es es' : list (string * string * string)) :
  log_text (es ++ es') = log_text es +:+ log_text es'.
Proof.
  induction es as [|e es IH]; [done|].
  change (log_text ((e :: es) ++ es'))
    with (link_body e +:+ String newline (log_text (es ++ es'))).
  change (log_text (e :: es)) with (link_body e +:+ String newline (log_text es)).
  by rewrite IH, append_assoc, append_cons.
Qed.

(** The line an upload appends is the line of its entry. *)
Lemma link_line_log_text (cn id fn : string) :
  link_line cn id fn ("/ask/" +:+ id) = log_text [(cn, id, fn)].
Proof.
  unfold link_line. simpl log_text. unfold link_body.
  rewrite !append_assoc. reflexivity.
Qed.

(** The decimal form of a clock reading is a plain id. *)
Lemma pretty_N_go_units (p : ascii → bool) :
  (∀ d, p (pretty_N_char d) = true) →
  ∀ x s, all_units p s = true → all_units p (pretty_N_go x s) = true.
Proof.
  intros Hp x. induction (N.lt_wf_0 x) as [x _ IH]. intros s Hs.
  destruct (decide (x = 0%N)) as [->|Hx]; [by rewrite pretty_N_go_0|].
  rewrite pretty_N_go_step by lia.
  apply IH; [apply N.div_lt; lia|]. simpl. by rewrite Hp, Hs.
Qed.

Lemma pretty_N_go_nonempty (x : N) (s : string) :
  s ≠ EmptyString → pretty_N_go x s ≠ EmptyString.
Proof.
  induction (N.lt_wf_0 x) as [x _ IH] in s |- *. intros Hs.
  destruct (decide (x = 0%N)) as [->|Hx]; [by rewrite pretty_N_go_0|].
  rewrite pretty_N_go_step by lia. apply IH; [apply N.div_lt; lia|done].
Qed.

Lemma number_toString_plain (n : N) : plain_id (number_toString n) = true.
Proof.
  assert (Hd : ∀ d, (λ c, negb (is_comma c) && negb (is_ws c)) (pretty_N_char d) = true).
  { intros d. unfold pretty_N_char. by repeat case_match. }
  unfold plain_id, number_toString, pretty, pretty_N.
  destruct (decide (n = 0%N)) as [->|Hn]; [done|].
  apply andb_true_iff. split.
  - apply bool_decide_eq_true. rewrite pretty_N_go_step by lia.
    by apply pretty_N_go_nonempty.
  - by apply pretty_N_go_units.
Qed.

Section ScriptLinks.
Context {xlsx_lib : XLSXLib}.
Implicit Types (st : State) (req : UploadRequest).

(** X13: a successful upload is listed by GET /script-links.  When the
    link log holds the lines appended for earlier entries (or does not
    exist yet) and client names and file names contain no comma and no
    line terminator, the listing after the upload is the earlier entries
    in their order followed by the new one, with the client name, the
    scriptId, the file name and the full URL of the reply. *)
Theorem upload_listed_by_script_links req st st' (id fn cn url : string)
    (entries : list (string * string * string)) :
  upload req st = (st', Json 200 (BUploaded id fn cn url)) →
  default EmptyString (links_file st) = log_text entries →
  Forall (λ e, plain_entry e = true) entries →
  plain_field cn = true → plain_field fn = true →
  script_links st'
  = (listed <$> entries)
    ++ [ {| client := cn; link_scriptId := id; link_fileName := fn;
            url := "http://65.1.176.171:8080" +:+ url |} ].
Proof.
  intros Hup Hlog Hall Hcn Hfn.
  apply upload_success_inv in Hup as (Hid & -> & _ & _ & _ & _ & Hlinks).
  unfold script_links. rewrite Hlinks. unfold appendFile.
  rewrite Hlog, link_line_log_text, <- log_text_app.
  rewrite scripts_of_log_text.
  - by rewrite fmap_app.
  - apply Forall_app. split; [done|]. constructor; [|done].
    unfold plain_entry. rewrite Hcn, Hfn, Hid. by rewrite number_toString_plain.
Qed.

End ScriptLinks.

(** ** The link log after a delete *)

Lemma starts_with_inv (n h : string) : starts_with n h = true → h = n +:+ skip (String.length n) h.
Proof.
  revert h. induction n as [|a n IH]; intros h; [by destruct h|].
  destruct h as [|b h]; [done|]. simpl.
  intros [Hab Hn]%andb_true_iff. apply bool_decide_eq_true in Hab. subst b.
  rewrite append_cons. f_equal. by apply IH.
Qed.

(** [includes] finds the needle between two parts of the haystack. *)
Lemma includes_inv (n h : string) : includes n h = true → ∃ p q, h = p +:+ n +:+ q.
Proof.
  induction h as [|c h IH].
  - destruct n; [|done]. intros _. by exists EmptyString, EmptyString.
  - intros [Hs|Hi]%orb_true_iff.
    + exists EmptyString. eexists. rewrite append_nil. by apply starts_with_inv.
    + destruct (IH Hi) as (p & q & ->). exists (String c p), q. by rewrite append_cons.
Qed.

Lemma includes_intro (n p q : string) : includes n (p +:+ n +:+ q) = true.
Proof.
  induction p as [|c p IH].
  - rewrite append_nil. destruct (n +:+ q) eqn:Hnq; simpl;
      rewrite <- Hnq, starts_with_app; done.
  - rewrite append_cons. simpl. by rewrite IH, orb_true_r.
Qed.

(** A needle found in a part is found in the whole. *)
Lemma includes_within (n h p q : string) :
  includes n h = true → includes n (p +:+ h +:+ q) = true.
Proof.
  intros (p' & q' & ->)%includes_inv.
  rewrite !append_assoc, <- (append_assoc p p'). apply includes_intro.
Qed.

Lemma trimStart_split (s : string) : ∃ w, s = w +:+ trimStart s.
Proof.
  induction s as [|c s [w IH]]; [by exists EmptyString|]. simpl.
  destruct (is_ws c); [|by exists EmptyString].
  exists (String c w). rewrite append_cons. by f_equal.
Qed.

Lemma trimEnd_split (s : string) : ∃ w, s = trimEnd s +:+ w.
Proof.
  induction s as [|c s [w IH]]; [by exists EmptyString|]. simpl.
  destruct (trimEnd s) as [|a r].
  - rewrite append_nil in IH. subst w.
    destruct (is_ws c); [by exists (String c s)|by exists s].
  - exists w. rewrite append_cons. by f_equal.
Qed.

(** Every line of [t] ends a line of [s +:+ t]. *)
Lemma split_lines_prepend (s t l : string) :
  l ∈ split_lines t → ∃ l' p, l' ∈ split_lines (s +:+ t) ∧ l' = p +:+ l.
Proof.
  intros Hl. induction s as [|c s (l' & p & Hin & ->)].
  - exists l, EmptyString. by rewrite append_nil.
  - rewrite append_cons. simpl. destruct (is_newline c).
    + exists (p +:+ l), p. split; [by right|done].
    + destruct (split_lines (s +:+ t)) as [|h tl]; [by apply elem_of_nil in Hin|].
      apply elem_of_cons in Hin as [<-|Hin].
      * exists (String c (p +:+ l)), (String c p). split; [by left|done].
      * exists (p +:+ l), p. split; [by right|done].
Qed.

(** Every line of [s] starts a line of [s +:+ t]. *)
Lemma split_lines_append (s t : string) :
  (∃ q, head (split_lines (s +:+ t)) = Some (default EmptyString (head (split_lines s)) +:+ q))
  ∧ ∀ l, l ∈ tail (split_lines s) → ∃ l' q, l' ∈ tail (split_lines (s +:+ t)) ∧ l' = l +:+ q.
Proof.
  induction s as [|c s [[q Hhead] Htail]].
  - rewrite append_nil. simpl. split; [|by intros l Hl%elem_of_nil].
    destruct (split_lines t) as [|h tl] eqn:Ht; [by destruct (split_lines_nonempty t)|].
    by exists h.
  - rewrite append_cons. simpl. destruct (is_newline c).
    + split; [by exists EmptyString|]. simpl. intros l Hl.
      destruct (split_lines s) as [|h tl] eqn:Hs; [by apply elem_of_nil in Hl|].
      destruct (split_lines (s +:+ t)) as [|h2 tl2]; [done|].
      simpl in Hhead. injection Hhead as ->.
      apply elem_of_cons in Hl as [->|Hl].
      * exists (h +:+ q), q. split; [by left|done].
      * destruct (Htail l Hl) as (l' & q' & Hin & ->).
        exists (l +:+ q'), q'. split; [by right|done].
    + destruct (split_lines s) as [|h tl] eqn:Hs; [by destruct (split_lines_nonempty s)|].
      destruct (split_lines (s +:+ t)) as [|h2 tl2]; [done|].
      simpl in Hhead. injection Hhead as ->. simpl.
      split; [by exists q|]. exact Htail.
Qed.

Lemma split_lines_append_elem (s t l : string) :
  l ∈ split_lines s → ∃ l' q, l' ∈ split_lines (s +:+ t) ∧ l' = l +:+ q.
Proof.
  intros Hl. destruct (split_lines_append s t) as [[q Hhead] Htail].
  destruct (split_lines s) as [|h tl]; [by apply elem_of_nil in Hl|].
  destruct (split_lines (s +:+ t)) as [|h2 tl2]; [done|].
  simpl in *. injection Hhead as ->.
  apply elem_of_cons in Hl as [->|Hl].
  - exists (h +:+ q), q. split; [by left|done].
  - destruct (Htail l Hl) as (l' & q' & Hin & ->).
    exists (l +:+ q'), q'. split; [by right|done].
Qed.

(** Every line of [trim s] is part of a line of [s]. *)
Lemma split_lines_trim (s l : string) :
  l ∈ split_lines (trim s) → ∃ l' p q, l' ∈ split_lines s ∧ l' = p +:+ l +:+ q.
Proof.
  unfold trim. intros Hl.
  destruct (trimEnd_split (trimStart s)) as [w2 H2].
  destruct (trimStart_split s) as [w1 H1].
  destruct (split_lines_append_elem _ w2 _ Hl) as (l2 & q & Hin2 & ->).
  rewrite <- H2 in Hin2.
  destruct (split_lines_prepend w1 _ _ Hin2) as (l3 & p & Hin3 & ->).
  rewrite <- H1 in Hin3. by exists (p +:+ l +:+ q), p, q.
Qed.

Lemma lazy_group_inv {A} (sep : string) (k : string → option A) (s g : string) (x : A) :
  lazy_group sep k s = Some (g, x) → ∃ r, s = g +:+ sep +:+ r ∧ k r = Some x.
Proof.
  revert g. induction s as [|c s IH]; intros g; simpl.
  - destruct (starts_with sep EmptyString) eqn:Hs; [|done].
    destruct (k _) as [a|] eqn:Hk; [|done]. intros [= <- <-].
    exists (skip (String.length sep) EmptyString). rewrite append_nil.
    split; [by apply starts_with_inv|done].
  - destruct (if starts_with sep (String c s) then _ else None) as [a|] eqn:Hhit.
    + intros [= <- <-]. destruct (starts_with sep (String c s)) eqn:Hs; [|done].
      exists (skip (String.length sep) (String c s)). rewrite append_nil.
      split; [by apply starts_with_inv|done].
    + destruct (is_line_terminator c); [done|].
      destruct (lazy_group sep k s) as [[g' a]|]; [|done]. intros [= <- <-].
      destruct (IH g' eq_refl) as (r & -> & Hk). exists r. by rewrite append_cons.
Qed.

Lemma search_from_inv {A} (m : string → option A) (s : string) (x : A) :
  search_from m s = Some x → ∃ p t, s = p +:+ t ∧ m t = Some x.
Proof.
  induction s as [|c s IH]; simpl.
  - destruct (m EmptyString) eqn:Hm; [|done]. intros [= <-].
    by exists EmptyString, EmptyString.
  - destruct (m (String c s)) eqn:Hm.
    + intros [= <-]. by exists EmptyString, (String c s).
    + intros (p & t & -> & Ht)%IH. exists (String c p), t. by rewrite append_cons.
Qed.

(** The scriptId that the pattern reads from a line is part of the line. *)
Lemma parse_link_scriptId (line : string) (e : ScriptLink) :
  parse_link line = Some e → includes (link_scriptId e) line = true.
Proof.
  unfold parse_link. intros (p & t & -> & Ht)%search_from_inv.
  unfold link_pattern_here in Ht.
  destruct (starts_with "Client: " t) eqn:Hs; [|done].
  destruct (lazy_group _ _ _) as [[g1 [g2 [g3 g4]]]|] eqn:H1; [|done].
  injection Ht as <-. simpl.
  apply lazy_group_inv in H1 as (r1 & Hr1 & H2).
  apply lazy_group_inv in H2 as (r2 & -> & _).
  apply starts_with_inv in Hs. change (String.length "Client: ") with 8%nat in Hs.
  rewrite Hr1 in Hs. rewrite Hs.
  replace (p +:+ "Client: " +:+ g1 +:+ ", Script ID: " +:+ g2 +:+ ", File: " +:+ r2)
    with ((p +:+ "Client: " +:+ g1 +:+ ", Script ID: ") +:+ g2 +:+ (", File: " +:+ r2))
    by (by rewrite !append_assoc).
  apply includes_intro.
Qed.

Lemma includes_empty_needle (h : string) : includes EmptyString h = true.
Proof. by destruct h. Qed.

Lemma includes_refl (n : string) : includes n n = true.
Proof.
  assert (Hs : ∀ s, starts_with s s = true).
  { intros s. induction s as [|c s IH]; [done|]. simpl. by rewrite bool_decide_true. }
  destruct n; simpl; [done|]. by rewrite bool_decide_true, Hs.
Qed.

(** No line of the rewritten log, trimmed and split again as the listing
    does, has a part equal to the id. *)
Lemma scripts_of_remove_links (id content : string) (e : ScriptLink) :
  e ∈ scripts_of (remove_links id content) → includes id (link_scriptId e) = false.
Proof.
  unfold scripts_of. intros (l & Hl & He)%list_elem_of_omap.
  destruct (decide (id = EmptyString)) as [->|Hid].
  - exfalso. revert Hl. unfold remove_links.
    assert (Hnone : ∀ ls, filter (λ line, includes EmptyString line = false) ls = []).
    { intros ls. induction ls as [|x ls IH]; [done|].
      rewrite filter_cons_False; [done|]. by rewrite includes_empty_needle. }
    rewrite Hnone. simpl. intros ->%list_elem_of_singleton. done.
  - apply split_lines_trim in Hl as (l' & p & q & Hl' & ->).
    apply (remove_links_clean _ _ _ Hid) in Hl'.
    apply parse_link_scriptId in He.
    destruct (includes id (link_scriptId e)) eqn:Hin; [|done].
    apply includes_inv in He as (p1 & q1 & ->).
    rewrite <- Hl'. symmetry.
    apply includes_within with (p := p1) (q := q1) in Hin.
    by apply includes_within.
Qed.

Section DeleteLinks.
Context {xlsx_lib : XLSXLib}.
Implicit Types (st : State).

(** X14: after a successful delete, GET /script-links lists no entry whose
    scriptId is the deleted id, nor one whose scriptId contains it: the
    rewrite drops every line of the log in which the id occurs. *)
Theorem deleted_not_listed st id st' (msg : string) (e : ScriptLink) :
  delete_script id st = (st', Json 200 (BMessage msg)) →
  e ∈ script_links st' →
  link_scriptId e ≠ id ∧ includes id (link_scriptId e) = false.
Proof.
  unfold delete_script, script_links. intros Hdel He.
  destruct (find_entry _ _) as [[fileName rec]|]; [|done].
  destruct (links_file st) as [content|]; [|done].
  injection Hdel as <- _. simpl in He.
  apply scripts_of_remove_links in He. split; [|done].
  intros Heq. rewrite Heq, includes_refl in He. done.
Qed.

End DeleteLinks.

(** ** Client names across requests and restarts *)

Lemma NoDup_keys_functional {V} (o : list (string * V)) (k : string) (v1 v2 : V) :
  NoDup o.*1 → (k, v1) ∈ o → (k, v2) ∈ o → v1 = v2.
Proof.
  induction o as [|[k0 v0] o IH]; simpl; [by intros _ ?%elem_of_nil|].
  intros [Hnotin Hnd]%NoDup_cons [[= -> ->]|H1]%elem_of_cons [[= ->]|H2]%elem_of_cons.
  - done.
  - exfalso. apply Hnotin, list_elem_of_fmap. by exists (k0, v2).
  - exfalso. apply Hnotin, list_elem_of_fmap. by exists (k0, v1).
  - by apply IH.
Qed.

Lemma NoDup_clients (m : Mappings) :
  NoDup m.*1 →
  (∀ k1 v1 k2 v2, (k1, v1) ∈ m → (k2, v2) ∈ m → clientName v1 = clientName v2 → k1 = k2) →
  NoDup (clientName <$> m.*2).
Proof.
  induction m as [|[k v] m IH]; simpl; [constructor|].
  intros [Hnotin Hnd]%NoDup_cons Huniq. apply NoDup_cons. split.
  - intros (v' & Heq & [[k' v''] [-> Hin]]%list_elem_of_fmap)%list_elem_of_fmap.
    simpl in Heq. apply Hnotin.
    rewrite (Huniq k v k' v''); [|by left|by right|done].
    apply list_elem_of_fmap. by exists (k', v'').
  - apply IH; [done|]. intros k1 v1 k2 v2 H1 H2. apply Huniq; by right.
Qed.

Section Clients.
Context {fuse_lib : FuseLib} {xlsx_lib : XLSXLib}.
Implicit Types (st : State) (req : UploadRequest) (fn id : string) (rec : SheetRecord).

(** What a request does to the Record Store: nothing, one assignment of a
    record whose client name no record of the store carries, or one
    delete. *)
Lemma handle_store_fresh (rq : Request) st :
  let st' := (handle rq st).1 in
  scriptMappings st' = scriptMappings st
  ∨ (∃ k v, (clientName v ∉ existingClients (scriptMappings st))
            ∧ scriptMappings st' = obj_set k v (scriptMappings st))
  ∨ (∃ k, scriptMappings st' = obj_delete k (scriptMappings st)).
Proof.
  destruct rq as [req|id question|id|body|id]; simpl.
  - unfold upload, upload_handler, multer_single.
    destruct (file req) as [[fn data]|]; [|destruct (body_clientName req); by left].
    destruct (body_clientName req) as [raw|]; [|by left].
    case_bool_decide; [by left|]. simpl.
    case_bool_decide as Hfresh; [by left|].
    right. left.
    exists fn, {| scriptId := number_toString (now req);
                  redirectUrl := "/ask/" +:+ number_toString (now req);
                  clientName := trim raw |}.
    split; [exact Hfresh|].
    destruct (readFile _ fn); [|done]. by destruct (sheet_rejected _).
  - rewrite process_speech_state. by left.
  - unfold get_excel. destruct (find_entry _ _) as [[]|]; by left.
  - unfold update_excel.
    destruct (body_scriptId body), (body_sheet body); try by left.
    case_bool_decide; [by left|]. destruct (find_entry _ _) as [[]|]; [|by left].
    destruct (book_append_sheet _ _ _); [|by left]. destruct (readFile _ _); by left.
  - unfold delete_script. destruct (find_entry _ _) as [[fn rec]|]; [|by left].
    right. right. exists fn. by destruct (links_file st).
Qed.

Lemma handle_clients_unique (rq : Request) st :
  clients_unique st → clients_unique (handle rq st).1.
Proof.
  intros Huniq. unfold clients_unique.
  destruct (handle_store_fresh rq st) as [->|[(k & v & Hfresh & ->)|[k ->]]]; [done|..].
  - assert (Hnew : ∀ k' v', (k', v') ∈ scriptMappings st → clientName v' ≠ clientName v).
    { intros k' v' Hin Heq. apply Hfresh, elem_of_existingClients. by exists k', v'. }
    intros k1 v1 k2 v2 [[= -> ->]|[H1 _]]%elem_of_obj_set [[= -> ->]|[H2 _]]%elem_of_obj_set Heq.
    + done.
    + by destruct (Hnew k2 v2 H2).
    + by destruct (Hnew k1 v1 H1).
    + by apply (Huniq k1 v1 k2 v2).
  - intros k1 v1 k2 v2 [H1 _]%elem_of_obj_delete [H2 _]%elem_of_obj_delete.
    by apply Huniq.
Qed.

Lemma restart_clients_unique st :
  store_ok st → clients_unique st → clients_unique (restart st).
Proof.
  intros [Hnd Hfile] Huniq. unfold clients_unique, restart, startup. simpl.
  destruct (mappings_file st) as [doc|]; [|by intros ? ? ? ? ?%elem_of_nil].
  rewrite JSON_parse_NoDup by by rewrite Hfile.
  intros k1 v1 k2 v2. rewrite !Hfile. apply Huniq.
Qed.

Lemma life_preserves_clients_unique (events : list Event) st :
  store_ok st → clients_unique st → clients_unique (life events st).
Proof.
  revert st. induction events as [|[rq|] rest IH]; intros st Hok Huniq; simpl; [done|..].
  - apply IH; [by apply handle_store_ok|by apply handle_clients_unique].
  - apply IH; [by apply restart_store_ok|by apply restart_clients_unique].
Qed.

(** X15: client names stay unique.  In every state that a process started
    without a mapping file reaches, whatever requests it handles and
    however often it is restarted, no two records of the Record Store
    carry the same client name: the names that the upload handler
    collects are pairwise different. *)
Theorem life_clients_distinct (events : list Event) (lf : option string)
    (up : gmap string Buffer) :
  NoDup (existingClients (scriptMappings (life events (startup None lf up)))).
Proof.
  set (st := life events (startup None lf up)).
  assert (Hok : store_ok st).
  { apply life_preserves_store_ok. split; [constructor|done]. }
  assert (Huniq : clients_unique st).
  { apply life_preserves_clients_unique.
    - split; [constructor|done].
    - by intros ? ? ? ? ?%elem_of_nil. }
  unfold existingClients, Object_values.
  rewrite (Object_entries_Permutation (scriptMappings st)).
  apply NoDup_clients; [apply Hok|apply Huniq].
Qed.

End Clients.

(** ** The routes *)

Section Routes.
Context {express_lib : ExpressLib}.

(** X16: the route registered last is dead.  When the wildcard path
    matches every request path, no request of any method is answered with
    scripts.html, and a GET request whose path none of the three GET
    routes registered before the wildcard matches, GET /script among them,
    is answered with index.html. *)
Theorem wildcard_shadows_script_route (path : string) :
  (∀ p, path_matches "*" p = true) →
  (∀ m, dispatch m path ≠ Some (sendFile "scripts.html"))
  ∧ (path_matches "/script-links" path = false →
     path_matches "/get-excel/:id" path = false →
     path_matches "/ask/:id" path = false →
     dispatch GET path = Some (sendFile "index.html")).
Proof.
  intros Hstar. unfold dispatch, routes. split.
  - intros m. destruct m; simpl; rewrite ?Hstar;
      repeat (match goal with |- context [path_matches ?a ?b] =>
                destruct (path_matches a b) end; simpl); done.
  - intros H1 H2 H3. simpl. by rewrite H1, H2, H3, Hstar.
Qed.

End Routes.

(** ** Reading back an upload *)

Section UploadRead.
Context {fuse_lib : FuseLib} {xlsx_lib : XLSXLib}.
Implicit Types (st : State) (req : UploadRequest) (fn id : string) (rec : SheetRecord).

(** The record found under an id that only the record just assigned
    carries. *)
Lemma find_entry_obj_set (m : Mappings) fn rec :
  fn ≠ "__proto__" →
  (∀ k v, (k, v) ∈ m → k ≠ fn → scriptId v ≠ scriptId rec) →
  find_entry (obj_set fn rec m) (scriptId rec) = Some (fn, rec).
Proof.
  intros Hfn Hother.
  destruct (find_entry (obj_set fn rec m) (scriptId rec)) as [[k v]|] eqn:Hfind.
  - apply find_entry_Some in Hfind as [[[= -> ->]|[Hin Hne]]%elem_of_obj_set Hid]; [done|].
    by destruct (Hother k v Hin Hne).
  - exfalso. rewrite find_entry_None in Hfind. apply (Hfind fn rec); [|done].
    apply obj_get_Some. by apply obj_get_obj_set.
Qed.

(** X17: after a successful upload under a file name other than
    [__proto__], when no record stored under another file name carries the
    returned scriptId, GET /get-excel under that scriptId answers 200 with
    the rows decoded from the uploaded file, the very rows that the index
    of the scriptId holds. *)
Theorem upload_then_get req st st' (id fn cn url : string) :
  upload req st = (st', Json 200 (BUploaded id fn cn url)) →
  fn ≠ "__proto__" →
  (∀ k rec, (k, rec) ∈ scriptMappings st → k ≠ fn → scriptId rec ≠ id) →
  ∃ data wb,
    file req = Some (fn, data) ∧ XLSX_read data = Some wb
    ∧ uploads st' !! fn = Some data
    ∧ let rows := sheet_to_json (first_sheet wb) in
      get_excel id st' = (st', Json 200 (BSheet rows))
      ∧ excel_get (excelData st') id = Entry {| sheet := rows; fuse := new_Fuse rows |}.
Proof.
  unfold upload, upload_handler, multer_single.
  destruct (file req) as [[fn' data]|] eqn:Hfile; [|by destruct (body_clientName req)].
  destruct (body_clientName req) as [raw|] eqn:Hname; [|done].
  case_bool_decide as Hraw; [done|]. simpl.
  case_bool_decide as Hdup; [done|].
  destruct (readFile _ fn') as [wb|ex] eqn:Hread; [|done].
  destruct (sheet_rejected _) eqn:Hrej; [done|].
  intros [= <- <- <- <- <-] Hfn Hother.
  assert (Hdata : XLSX_read data = Some wb).
  { revert Hread. unfold readFile. rewrite lookup_insert_eq.
    destruct (XLSX_read data); [by intros [= ->]|done]. }
  exists data, wb. split; [done|]. split; [done|].
  split; [apply lookup_insert_eq|].
  simpl. split; [|apply excel_get_excel_set].
  unfold get_excel. simpl.
  set (rec := {| scriptId := number_toString (now req);
                 redirectUrl := "/ask/" +:+ number_toString (now req);
                 clientName := trim raw |}).
  change (number_toString (now req)) with (scriptId rec) at 1.
  rewrite find_entry_obj_set by done. by rewrite Hread.
Qed.

End UploadRead.

(** ** The further properties on the sample data *)

Module MoreExamples.
Import Reference.

Lemma restart_keeps_records_witness :
  scriptMappings (restart hours_state) ≡ₚ scriptMappings hours_state
  ∧ (∀ id, find_entry (scriptMappings (restart hours_state)) id = None
           ↔ find_entry (scriptMappings hours_state) id = None)
  ∧ excelData (restart hours_state) = excel_empty
  ∧ uploads (restart hours_state) = uploads hours_state.
Proof.
  apply (@restart_keeps_records plain_xlsx hours_state).
  split; [apply NoDup_singleton|exact (Permutation_refl _)].
Defined.

Lemma restart_forgets_index_witness :
  @process_speech exact_fuse plain_xlsx "1700" (Some (JStr "What are your hours?"))
    (restart hours_state)
  = (restart hours_state, Json 404 no_data).
Proof.
  apply (@restart_forgets_index exact_fuse plain_xlsx hours_state "1700"
           (Some (JStr "What are your hours?"))).
  - refine (bool_decide_unpack _ _). vm_compute. exact I.
  - reflexivity.
Defined.

Lemma upload_then_ask_witness :
  let st' := (upload (upload_of "b.xlsx" twin_sheet "Beta" 1800) hours_state).1 in
  ∃ data wb,
    file (upload_of "b.xlsx" twin_sheet "Beta" 1800) = Some ("b.xlsx", data)
    ∧ XLSX_read data = Some wb
    ∧ let rows := sheet_to_json (first_sheet wb) in
      excel_get (excelData st') "1800" = Entry {| sheet := rows; fuse := new_Fuse rows |}
      ∧ ∀ q, @process_speech exact_fuse plain_xlsx "1800" (Some (JStr q)) st'
             = (st', Json 200 (BAnswer match @Fuse_search exact_fuse server_options rows
                                               (toLowerCase q) with
                                       | item :: _ => item !! "Answer"
                                       | [] => fallback
                                       end)).
Proof.
  intros st'.
  apply (@upload_then_ask exact_fuse plain_xlsx
           (upload_of "b.xlsx" twin_sheet "Beta" 1800) hours_state st'
           "1800" "b.xlsx" "Beta" "/ask/1800").
  vm_compute. exact eq_refl.
Defined.

Lemma upload_frame_witness :
  let st' := (upload (upload_of "b.xlsx" twin_sheet "Beta" 1800) hours_state).1 in
  obj_get "faq.xlsx" (scriptMappings st') = obj_get "faq.xlsx" (scriptMappings hours_state)
  ∧ uploads st' !! "faq.xlsx" = uploads hours_state !! "faq.xlsx"
  ∧ ("faq.xlsx" ≠ number_toString 1800 →
     own (excelData st') !! "faq.xlsx" = own (excelData hours_state) !! "faq.xlsx").
Proof.
  apply (@upload_frame plain_xlsx (upload_of "b.xlsx" twin_sheet "Beta" 1800)
           hours_state "faq.xlsx").
  intros data. discriminate.
Defined.

Lemma refused_upload_replaces_file_witness :
  let st' := (upload (upload_of "faq.xlsx" twin_sheet "Acme" 1800) hours_state).1 in
  scriptMappings st' = scriptMappings hours_state
  ∧ excelData st' = excelData hours_state
  ∧ get_excel "1700" st' = (st', Json 200 (BSheet twin_sheet)).
Proof.
  apply (@refused_upload_replaces_file plain_xlsx
           (upload_of "faq.xlsx" twin_sheet "Acme" 1800) hours_state
           "faq.xlsx" (xlsx_file twin_sheet) "1700" hours_record (xlsx_file twin_sheet)).
  - reflexivity.
  - right. vm_compute. exact eq_refl.
  - vm_compute. exact eq_refl.
  - reflexivity.
Defined.

Lemma update_then_ask_witness :
  ∃ st', @update_excel plain_xlsx
           {| body_scriptId := Some "1700"; body_sheet := Some twin_sheet |} hours_state
         = (st', Json 200 updated_message)
         ∧ excel_get (excelData st') "1700"
           = Entry {| sheet := twin_sheet; fuse := new_Fuse twin_sheet |}
         ∧ ∀ q, @process_speech exact_fuse plain_xlsx "1700" (Some (JStr q)) st'
                = (st', Json 200 (BAnswer match @Fuse_search exact_fuse server_options
                                                  twin_sheet (toLowerCase q) with
                                          | item :: _ => item !! "Answer"
                                          | [] => fallback
                                          end)).
Proof.
  apply (@update_then_ask exact_fuse plain_xlsx hours_state "1700" twin_sheet
           "faq.xlsx" hours_record).
  - discriminate.
  - vm_compute. exact eq_refl.
  - eexists. split; reflexivity.
Defined.

Lemma delete_frame_witness :
  let st := (@run exact_fuse plain_xlsx two_uploads_run fresh).1 in
  let st' := (delete_script "5" st).1 in
  obj_get "b.xlsx" (scriptMappings st') = obj_get "b.xlsx" (scriptMappings st)
  ∧ uploads st' !! "b.xlsx" = uploads st !! "b.xlsx"
  ∧ ("b.xlsx" ≠ "5" → own (excelData st') !! "b.xlsx" = own (excelData st) !! "b.xlsx").
Proof.
  intros st.
  apply (@delete_frame plain_xlsx st "5" "b.xlsx").
  intros rec Hfind. vm_compute in Hfind. discriminate Hfind.
Defined.

Lemma unknown_scriptId_404_witness :
  get_excel "nope" hours_state = (hours_state, Json 404 (BError "File not found."))
  ∧ delete_script "nope" hours_state = (hours_state, Json 404 (BError "Script not found."))
  ∧ ∀ rows, "nope" ≠ EmptyString →
            @update_excel plain_xlsx
              {| body_scriptId := Some "nope"; body_sheet := Some rows |} hours_state
            = (hours_state, Json 404 (BError "File not found.")).
Proof.
  apply (@unknown_scriptId_404 plain_xlsx hours_state "nope").
  intros k v Hin. apply list_elem_of_singleton in Hin. by inversion Hin.
Defined.

Lemma upload_listed_by_script_links_witness :
  let st' := (upload (upload_of "b.xlsx" twin_sheet "  Beta " 1800) hours_state).1 in
  script_links st'
  = [ {| client := "Acme"; link_scriptId := "1700"; link_fileName := "faq.xlsx";
         url := "http://65.1.176.171:8080/ask/1700" |};
      {| client := "Beta"; link_scriptId := "1800"; link_fileName := "b.xlsx";
         url := "http://65.1.176.171:8080/ask/1800" |} ].
Proof.
  intros st'.
  apply (@upload_listed_by_script_links plain_xlsx
           (upload_of "b.xlsx" twin_sheet "  Beta " 1800) hours_state st'
           "1800" "b.xlsx" "Beta" "/ask/1800" [("Acme", "1700", "faq.xlsx")]).
  - vm_compute. exact eq_refl.
  - reflexivity.
  - repeat constructor.
  - reflexivity.
  - reflexivity.
Defined.

Lemma deleted_not_listed_witness :
  let st := (@run exact_fuse plain_xlsx
               [ Upload (upload_of "a.xlsx" hours_sheet "A" 2);
                 Upload (upload_of "b.xlsx" hours_sheet "B" 3) ] fresh).1 in
  let e := {| client := "B"; link_scriptId := "3"; link_fileName := "b.xlsx";
              url := "http://65.1.176.171:8080/ask/3" |} in
  e ∈ script_links (delete_script "2" st).1
  ∧ link_scriptId e ≠ "2" ∧ includes "2" (link_scriptId e) = false.
Proof.
  intros st e.
  assert (Hin : e ∈ script_links (delete_script "2" st).1).
  { vm_compute. left. }
  split; [exact Hin|].
  apply (@deleted_not_listed plain_xlsx st "2" (delete_script "2" st).1
           "Script deleted successfully!" e).
  - vm_compute. exact eq_refl.
  - exact Hin.
Defined.

Lemma wildcard_shadows_script_route_witness :
  (∀ p, @path_matches express_paths "*" p = true)
  ∧ (∀ m, @dispatch express_paths m "/script" ≠ Some (sendFile "scripts.html"))
  ∧ @dispatch express_paths GET "/script" = Some (sendFile "index.html").
Proof.
  assert (Hstar : ∀ p, @path_matches express_paths "*" p = true) by (intros p; reflexivity).
  split; [exact Hstar|].
  destruct (@wildcard_shadows_script_route express_paths "/script" Hstar) as [Hdead Hindex].
  split; [exact Hdead|]. apply Hindex; reflexivity.
Defined.

Lemma upload_then_get_witness :
  let st' := (upload (upload_of "b.xlsx" twin_sheet "Beta" 1800) hours_state).1 in
  ∃ data wb,
    file (upload_of "b.xlsx" twin_sheet "Beta" 1800) = Some ("b.xlsx", data)
    ∧ XLSX_read data = Some wb
    ∧ uploads st' !! "b.xlsx" = Some data
    ∧ let rows := sheet_to_json (first_sheet wb) in
      get_excel "1800" st' = (st', Json 200 (BSheet rows))
      ∧ excel_get (excelData st') "1800"
        = Entry {| sheet := rows; fuse := new_Fuse rows |}.
Proof.
  intros st'.
  apply (@upload_then_get plain_xlsx
           (upload_of "b.xlsx" twin_sheet "Beta" 1800) hours_state st'
           "1800" "b.xlsx" "Beta" "/ask/1800").
  - vm_compute. exact eq_refl.
  - discriminate.
  - intros k rec Hin _. apply list_elem_of_singleton in Hin. by inversion Hin.
Defined.

End MoreExamples.
